(** * EduScan attendance core: scan orchestration, ledger and visibility

    A shallow embedding of the state and logic of the React application
    (App.tsx, LiveScanner, Reports, AdminPanel, geminiService) together with
    the properties of the attendance ledger, the verdict interpreter, the
    scanner state machine and the role filter.

    React state is threaded explicitly: a handler [h] that calls
    [setX (prev => f prev)] becomes a function from the old value of [X] to
    the new one.  A handler is created by a render and reads the state
    values of that render; where a handler can run after the state has
    moved on (the ledger handler, the scanner), what it closes over is an
    argument of its own, and the render last committed to the screen is
    part of the state.  JavaScript values that may be
    [undefined]/[null]/[NaN] are [option]s. *)

From Stdlib Require Import ZArith QArith.QArith_base Lia Strings.Ascii Strings.String.
From Stdlib Require Import DecimalString.
From stdpp Require Import base list strings gmap.

Local Open Scope Z_scope.
Local Open Scope string_scope.
Local Open Scope list_scope.

(** ** JavaScript primitives used by the sources *)

Module JS.

(** Truthiness of a [string | null | undefined]: only a non-empty string
    is truthy. *)
Definition truthy (o : option string) : bool :=
  match o with
  | Some s => negb (String.eqb s "")
  | None => false
  end.

(** [a === b] for a string [a] and a [string | undefined] [b]. *)
Definition strict_eq (a : string) (b : option string) : bool :=
  match b with
  | Some s => String.eqb a s
  | None => false
  end.

(** [a === b] on numbers, where [None] stands for [NaN]. *)
Definition num_eq (a b : option Z) : bool :=
  match a, b with
  | Some x, Some y => Z.eqb x y
  | _, _ => false
  end.

(** [Math.abs(a - b) < bound] on numbers, where [None] stands for [NaN]:
    every comparison with [NaN] is false. *)
Definition abs_diff_lt (a b : option Z) (bound : Z) : bool :=
  match a, b with
  | Some x, Some y => Z.ltb (Z.abs (x - y)) bound
  | _, _ => false
  end.

(** [l.slice(start, end)] for non-negative literal indices. *)
Definition slice {A} (start end_ : nat) (l : list A) : list A :=
  take (end_ - start) (drop start l).

(** [s.split(',')]: the pieces between commas, at least one piece. *)
Fixpoint split_comma_aux (cur : string) (s : string) : list string :=
  match s with
  | EmptyString => [String.rev cur]
  | String c rest =>
      if Ascii.eqb c ","%char
      then String.rev cur :: split_comma_aux EmptyString rest
      else split_comma_aux (String c cur) rest
  end.

Definition split_comma (s : string) : list string :=
  split_comma_aux EmptyString s.

(** [hay.includes(needle)]. *)
Fixpoint includes (hay needle : string) : bool :=
  String.prefix needle hay ||
  match hay with
  | EmptyString => false
  | String _ rest => includes rest needle
  end.

End JS.

(** ** types.ts *)

Inductive Role := admin | teacher.

Definition Role_eqb (a b : Role) : bool :=
  match a, b with
  | admin, admin | teacher, teacher => true
  | _, _ => false
  end.

Module Student.
Record t := mk {
  id : string;
  name : string;
  rollNumber : string;
  classSection : string;
  photoUrl : string;
  registeredAt : string
}.
End Student.

Module User.
Record t := mk {
  username : string;
  password : string;
  name : string;
  role : Role;
  assignedClass : option string
}.
End User.

Inductive AttendanceStatus := PRESENT | ABSENT | PROXY_ATTEMPT.

Definition AttendanceStatus_eqb (a b : AttendanceStatus) : bool :=
  match a, b with
  | PRESENT, PRESENT | ABSENT, ABSENT | PROXY_ATTEMPT, PROXY_ATTEMPT => true
  | _, _ => false
  end.

#[global] Instance AttendanceStatus_eq_dec : EqDecision AttendanceStatus.
Proof. solve_decision. Defined.

#[global] Instance Role_eq_dec : EqDecision Role.
Proof. solve_decision. Defined.

Module AttendanceRecord.
Record t := mk {
  id : string;
  studentId : string;
  studentName : string;
  timestamp : string;
  date : string;
  status : AttendanceStatus;
  confidence : Q;
  emotion : option string;
  notes : option string
}.
End AttendanceRecord.

Module ScanResult.
Record t := mk {
  matchId : option string;
  confidence : Q;
  isRealPerson : bool;
  emotion : string;
  description : string
}.
End ScanResult.

(** ** App.tsx *)

Module App.

Definition SUPER_ADMIN : User.t :=
  User.mk "prahald" "Prahlad@12" "Prahlad (Super Admin)" admin None.

(** [filteredStudents], with [currentUser : User | null]. *)
Definition filteredStudents (currentUser : option User.t)
    (students : list Student.t) : list Student.t :=
  match currentUser with
  | None => []
  | Some u =>
      if Role_eqb (User.role u) teacher && JS.truthy (User.assignedClass u)
      then List.filter
             (fun s => JS.strict_eq (Student.classSection s) (User.assignedClass u))
             students
      else students
  end.

(** [filteredRecords]. *)
Definition filteredRecords (currentUser : option User.t)
    (students : list Student.t) (records : list AttendanceRecord.t)
    : list AttendanceRecord.t :=
  match currentUser with
  | None => []
  | Some u =>
      if Role_eqb (User.role u) teacher && JS.truthy (User.assignedClass u)
      then
        let classStudentIds :=
          List.map Student.id
            (List.filter
               (fun s => JS.strict_eq (Student.classSection s) (User.assignedClass u))
               students) in
        List.filter
          (fun r => existsb (String.eqb (AttendanceRecord.studentId r)) classStudentIds)
          records
      else records
  end.

Definition handleAddUser (newUser : User.t) (prev : list User.t) : list User.t :=
  prev ++ [newUser].

Definition handleEditUser (updatedUser : User.t) (prev : list User.t) : list User.t :=
  List.map
    (fun u => if String.eqb (User.username u) (User.username updatedUser)
              then updatedUser else u)
    prev.

Definition handleDeleteUser (username : string) (prev : list User.t) : list User.t :=
  List.filter (fun u => negb (String.eqb (User.username u) username)) prev.

Section Ledger.

(** [new Date(s).getTime()] for the legacy-format string [s]; the
    parse is left to the host, [None] is an invalid date ([NaN]). *)
Variable Date_getTime : string -> option Z.

Definition timeOfDay (timestamp : string) : option Z :=
  Date_getTime ("1970/01/01 " +:+ timestamp).

(** The predicate given to [records.find] in [handleMarkAttendance]. *)
Definition isRecent (record r : AttendanceRecord.t) : bool :=
  String.eqb (AttendanceRecord.studentId r) (AttendanceRecord.studentId record)
  && String.eqb (AttendanceRecord.date r) (AttendanceRecord.date record)
  && JS.abs_diff_lt (timeOfDay (AttendanceRecord.timestamp r))
                    (timeOfDay (AttendanceRecord.timestamp record)) 60000.

Definition recentRecord (records : list AttendanceRecord.t)
    (record : AttendanceRecord.t) : option AttendanceRecord.t :=
  List.find (isRecent record) records.

(** [handleMarkAttendance].  The handler is created by a render of [App]
    and closes over the [records] of that render: this is the list that
    [find] searches.  The update [setRecords(prev => [record, ...prev])]
    prepends to [prev], the state at the time React applies it.  The two
    lists are the same only when the handler comes from a render that
    shows the current state.  The result is the new value of the
    state. *)
Definition handleMarkAttendance (records : list AttendanceRecord.t)
    (record : AttendanceRecord.t) (prev : list AttendanceRecord.t)
    : list AttendanceRecord.t :=
  match recentRecord records record with
  | None => record :: prev
  | Some _ => prev
  end.

(** The test [!recentRecord] made by a handler that closes over
    [records]: whether the update is issued. *)
Definition accepted (records : list AttendanceRecord.t)
    (record : AttendanceRecord.t) : bool :=
  match recentRecord records record with
  | None => true
  | Some _ => false
  end.

End Ledger.

End App.


(** ** services/geminiService.ts *)

Module GeminiService.

(** One entry of the [parts] array sent to the model. *)
Inductive Part :=
| text (s : string)
| inlineData (mimeType data : string).

(** What the awaited call yields: a thrown error or a parsed result. *)
Inductive Outcome :=
| Failed
| Returned (result : ScanResult.t).

(** [s.split(',')[1] || s]: the payload of a data URL, or the string
    itself when there is no (non-empty) second piece. *)
Definition clean (s : string) : string :=
  match JS.split_comma s !! 1%nat with
  | Some piece => if JS.truthy (Some piece) then piece else s
  | None => s
  end.

(** [registeredStudents.slice(0, 5)]. *)
Definition activeStudents (registeredStudents : list Student.t) : list Student.t :=
  JS.slice 0 5 registeredStudents.

(** The two parts pushed for one student by the body of the [for] loop. *)
Definition pushStudent (parts : list Part) (student : Student.t) : list Part :=
  (parts ++ [text ("Student ID: " +:+ Student.id student +:+ " - Name: " +:+ Student.name student)])
        ++ [inlineData "image/jpeg" (clean (Student.photoUrl student))].

(** The [parts] array as it stands when [generateContent] is called. *)
Definition buildParts (currentFrameBase64 : string)
    (registeredStudents : list Student.t) : list Part :=
  let cleanFrame := clean currentFrameBase64 in
  let parts := [] in
  let parts := parts ++ [text "TARGET IMAGE (Current Camera Feed):"] in
  let parts := parts ++ [inlineData "image/jpeg" cleanFrame] in
  let parts := parts ++ [text "REFERENCE IMAGES (Registered Students):"] in
  let parts := fold_left pushStudent (activeStudents registeredStudents) parts in
  parts ++ [text "Analyze the Target Image against the Reference Images. If a match is found with high confidence, return the ID. If strictly no match, return null."].

(** [analyzeFrame]; [generate] stands for the remote call followed by
    [JSON.parse], and fails when either throws. *)
Definition analyzeFrame (generate : list Part -> Outcome)
    (currentFrameBase64 : string) (registeredStudents : list Student.t) : Outcome :=
  if (length registeredStudents =? 0)%nat
  then Returned (ScanResult.mk None 0 false "No students registered"
                   "Please register students first.")
  else generate (buildParts currentFrameBase64 registeredStudents).

End GeminiService.

(** ** components/LiveScanner.tsx *)

Module LiveScanner.

(** The three clock reads made when a record is built:
    [Date.now().toString()], [new Date().toLocaleTimeString()] and
    [new Date().toISOString().split('T')[0]]. *)
Record Clock := mkClock {
  now_id : string;
  now_time : string;
  now_date : string
}.

(** A call to [analyzeFrame] that has not settled yet, with what the
    suspended [handleScan] holds on to: the frame and the students it
    passed, and the [onMarkAttendance] of its render, that is the
    [records] which that handler closes over. *)
Record Call := mkCall {
  frame : string;
  studs : list Student.t;
  onMark : list AttendanceRecord.t
}.

(** Component state, the two refs, and the calls in flight. *)
Record State := mk {
  isActive : bool;
  isProcessing : bool;
  lastScanResult : option ScanResult.t;
  autoMode : bool;
  logs : list string;
  videoRef : bool;
  canvasRef : bool;
  srcObject : bool;
  pending : list Call
}.

Definition initial : State :=
  mk false false None false [] true true false [].

Definition addLog (msg : string) (st : State) : State :=
  mk (isActive st) (isProcessing st) (lastScanResult st) (autoMode st)
     (take 10 (msg :: logs st)) (videoRef st) (canvasRef st) (srcObject st) (pending st).

Definition setIsProcessing (b : bool) (st : State) : State :=
  mk (isActive st) b (lastScanResult st) (autoMode st)
     (logs st) (videoRef st) (canvasRef st) (srcObject st) (pending st).

Definition setLastScanResult (r : ScanResult.t) (st : State) : State :=
  mk (isActive st) (isProcessing st) (Some r) (autoMode st)
     (logs st) (videoRef st) (canvasRef st) (srcObject st) (pending st).

Definition setPending (p : list Call) (st : State) : State :=
  mk (isActive st) (isProcessing st) (lastScanResult st) (autoMode st)
     (logs st) (videoRef st) (canvasRef st) (srcObject st) p.

(** [startCamera]; [granted] is whether [getUserMedia] resolved. *)
Definition startCamera (granted : bool) (st : State) : State :=
  if granted then
    if videoRef st then
      addLog "Camera started"
        (mk true (isProcessing st) (lastScanResult st) (autoMode st)
            (logs st) (videoRef st) (canvasRef st) true (pending st))
    else st
  else addLog "Error accessing camera" st.

Definition stopCamera (st : State) : State :=
  if videoRef st && srcObject st then
    addLog "Camera stopped"
      (mk false (isProcessing st) (lastScanResult st) false
          (logs st) (videoRef st) (canvasRef st) false (pending st))
  else st.

(** The Auto Scan button: [setAutoMode(!autoMode)], where [autoMode] is
    the value the handler's render saw. *)
Definition toggleAuto (autoModeSeen : bool) (st : State) : State :=
  mk (isActive st) (isProcessing st) (lastScanResult st) (negb autoModeSeen)
     (logs st) (videoRef st) (canvasRef st) (srcObject st) (pending st).

(** What processing a result does besides state updates: the record
    handed to [onMarkAttendance] and the message handed to [addLog]. *)
Record Interpretation := mkInterp {
  marked : option AttendanceRecord.t;
  logged : option string
}.

(** The block under "Process Result" in [handleScan]. *)
Definition processResult (students : list Student.t) (clock : Clock)
    (result : ScanResult.t) : Interpretation :=
  if JS.truthy (ScanResult.matchId result) then
    match List.find (fun s => JS.strict_eq (Student.id s) (ScanResult.matchId result)) students with
    | Some student =>
        if ScanResult.isRealPerson result then
          mkInterp
            (Some (AttendanceRecord.mk (now_id clock) (Student.id student)
                     (Student.name student) (now_time clock) (now_date clock)
                     PRESENT (ScanResult.confidence result)
                     (Some (ScanResult.emotion result))
                     (Some (ScanResult.description result))))
            (Some ("✅ Marked " +:+ Student.name student +:+ " as PRESENT"))
        else
          mkInterp
            (Some (AttendanceRecord.mk (now_id clock) (Student.id student)
                     (Student.name student) (now_time clock) (now_date clock)
                     PROXY_ATTEMPT (ScanResult.confidence result)
                     (Some (ScanResult.emotion result))
                     (Some ("Spoofing Detected: " +:+ ScanResult.description result))))
            (Some ("⚠️ Proxy Attempt blocked for " +:+ Student.name student))
    | None => mkInterp None None
    end
  else mkInterp None (Some ("ℹ️ " +:+ ScanResult.description result)).

(** What a render of the component shows and what the handlers it
    creates close over: the three state values read by [handleScan], by
    the buttons and by the effect, and the [records] closed over by the
    [onMarkAttendance] it was given. *)
Record Render := mkRender {
  r_isActive : bool;
  r_isProcessing : bool;
  r_autoMode : bool;
  r_records : list AttendanceRecord.t
}.

(** The application state a scan touches: the ledger held by [App], the
    current state of the scanner, the render last committed to the
    screen (its buttons are the ones a user can press), and the interval
    installed by the effect, if any, with the render whose [handleScan]
    it calls. *)
Record World := mkWorld {
  records : list AttendanceRecord.t;
  scanner : State;
  shown : Render;
  interval : option Render
}.

(** The render React would produce from the current state. *)
Definition render (w : World) : Render :=
  mkRender (isActive (scanner w)) (isProcessing (scanner w))
    (autoMode (scanner w)) (records w).

(** The component as mounted on a ledger: nothing on, first render
    committed, no interval. *)
Definition mount (records : list AttendanceRecord.t) : World :=
  mkWorld records initial (mkRender false false false records) None.

(** React commits a render of the current state.  The effect has
    [isActive], [autoMode] and [isProcessing] as dependencies: when one
    of them differs from the previous render, the old interval is cleared
    and a new one is installed if [isActive && autoMode && !isProcessing];
    otherwise the interval in place, with the handler of an older render,
    stays. *)
Definition commit (w : World) : World :=
  let r := render w in
  let same :=
    Bool.eqb (r_isActive r) (r_isActive (shown w))
    && Bool.eqb (r_autoMode r) (r_autoMode (shown w))
    && Bool.eqb (r_isProcessing r) (r_isProcessing (shown w)) in
  mkWorld (records w) (scanner w) r
    (if same then interval w
     else if r_isActive r && r_autoMode r && negb (r_isProcessing r)
          then Some r else None).

Definition withScanner (st : State) (w : World) : World :=
  mkWorld (records w) st (shown w) (interval w).

Section Scanner.

Variable Date_getTime : string -> option Z.

(** The props of the component: the students visible to the actor. *)
Variable students : list Student.t.

(** [handleScan], as created by the render [r], up to its [await]: the
    guard reads the refs and the [isProcessing] that [r] saw; [ctx] is
    whether [getContext('2d')] gave a context, [frame] is
    [canvas.toDataURL(...)]. *)
Definition handleScan_begin (r : Render) (ctx : bool) (frame : string)
    (w : World) : World :=
  let st := scanner w in
  if negb (videoRef st) || negb (canvasRef st) || r_isProcessing r then w
  else
    let st := setIsProcessing true st in
    let st := addLog "Scanning frame..." st in
    if negb ctx then withScanner (setIsProcessing false st) w
    else withScanner
           (setPending (pending st ++ [mkCall frame students (r_records r)]) st) w.

(** [handleScan] from the moment the awaited [analyzeFrame] settles, for
    the oldest call in flight. *)
Definition handleScan_resume (generate : list GeminiService.Part -> GeminiService.Outcome)
    (clock : Clock) (w : World) : World :=
  let st := scanner w in
  match pending st with
  | [] => w
  | call :: rest =>
      let st := setPending rest st in
      match GeminiService.analyzeFrame generate (frame call) (studs call) with
      | GeminiService.Returned result =>
          let st := setLastScanResult result st in
          let i := processResult (studs call) clock result in
          let recs :=
            match marked i with
            | Some record =>
                App.handleMarkAttendance Date_getTime (onMark call) record (records w)
            | None => records w
            end in
          let st := match logged i with Some msg => addLog msg st | None => st end in
          mkWorld recs (setIsProcessing false st) (shown w) (interval w)
      | GeminiService.Failed =>
          let st := addLog "❌ Scan failed: AI Error" st in
          withScanner (setIsProcessing false st) w
      end
  end.

(** A firing of the 8-second interval: it calls the [handleScan] of the
    render in which the effect installed it. *)
Definition intervalTick (ctx : bool) (frame : string) (w : World) : World :=
  match interval w with
  | Some r => handleScan_begin r ctx frame w
  | None => w
  end.

(** The Scan Now button of the render on screen: rendered while that
    render is active, disabled while it is processing; its [onClick] is
    the [handleScan] of that render.  React re-renders at the end of a
    click. *)
Definition scanNow (ctx : bool) (frame : string) (w : World) : World :=
  if r_isActive (shown w) && negb (r_isProcessing (shown w))
  then commit (handleScan_begin (shown w) ctx frame w)
  else w.

(** [Rendered] is a re-render scheduled by React after updates made
    outside a click: by the interval, or after an [await]. *)
Inductive Event :=
| StartCamera (granted : bool)
| StopCamera
| ToggleAuto
| ScanNow (ctx : bool) (frame : string)
| Tick (ctx : bool) (frame : string)
| Settled (generate : list GeminiService.Part -> GeminiService.Outcome) (clock : Clock)
| Rendered.

(** The Start button is on screen while the render shown is inactive,
    the Auto Scan and Stop buttons while it is active.  [StartCamera] is
    the settlement of [getUserMedia] after a press of Start. *)
Definition step (w : World) (e : Event) : World :=
  match e with
  | StartCamera granted =>
      if r_isActive (shown w) then w
      else withScanner (startCamera granted (scanner w)) w
  | StopCamera =>
      if r_isActive (shown w)
      then commit (withScanner (stopCamera (scanner w)) w)
      else w
  | ToggleAuto =>
      if r_isActive (shown w)
      then commit (withScanner (toggleAuto (r_autoMode (shown w)) (scanner w)) w)
      else w
  | ScanNow ctx frame => scanNow ctx frame w
  | Tick ctx frame => intervalTick ctx frame w
  | Settled generate clock => handleScan_resume generate clock w
  | Rendered => commit w
  end.

Definition run (w : World) (es : list Event) : World := fold_left step es w.

End Scanner.

End LiveScanner.

(** ** components/Reports.tsx *)

Module Reports.

Inductive ReportType := daily | monthly.

(** One row of the monthly table. *)
Record Stat := mkStat {
  student : Student.t;
  present : Z;
  absent : Z;
  percentage : Z
}.

Section MonthlyStats.

(** [new Date(d).getFullYear()] and [new Date(d).getMonth()] for a date
    string [d], as the host computes them; [None] is [NaN]. *)
Variable Date_getFullYear : string -> option Z.
Variable Date_getMonth : string -> option Z.

(** [Math.round((presentCount / totalDays) * 100)]. *)
Variable Math_round_percent : Z -> Z -> Z.

Variable toLowerCase : string -> string.

(** The filter that selects [monthRecords]; [year] and [month] are the
    two numbers read from [selectedMonth]. *)
Definition inSelectedMonth (year month : option Z) (r : AttendanceRecord.t) : bool :=
  JS.num_eq (Date_getFullYear (AttendanceRecord.date r)) year
  && JS.num_eq (option_map (fun m => m + 1) (Date_getMonth (AttendanceRecord.date r))) month.

Definition monthRecords (year month : option Z) (records : list AttendanceRecord.t)
    : list AttendanceRecord.t :=
  List.filter (inSelectedMonth year month) records.

(** [new Set(monthRecords.map(r => r.date)).size]. *)
Definition uniqueDays (year month : option Z) (records : list AttendanceRecord.t) : Z :=
  let dates : gset string :=
    list_to_set (List.map AttendanceRecord.date (monthRecords year month records)) in
  Z.of_nat (size dates).

Definition totalDays (year month : option Z) (records : list AttendanceRecord.t) : Z :=
  let uniqueDays := uniqueDays year month records in
  if (0 <? uniqueDays)%Z then uniqueDays else 0.

(** The body of [students.map(student => ...)]. *)
Definition studentStat (year month : option Z) (records : list AttendanceRecord.t)
    (student : Student.t) : Stat :=
  let totalDays := totalDays year month records in
  let studentRecords :=
    List.filter (fun r => String.eqb (AttendanceRecord.studentId r) (Student.id student))
      (monthRecords year month records) in
  let presentCount :=
    Z.of_nat (length
      (List.filter (fun r => AttendanceStatus_eqb (AttendanceRecord.status r) PRESENT)
         studentRecords)) in
  let absentCount := totalDays - presentCount in
  mkStat student presentCount
    (if (absentCount <? 0)%Z then 0 else absentCount)
    (if (totalDays =? 0)%Z then 0 else Math_round_percent presentCount totalDays).

Definition monthlyStats (reportType : ReportType) (year month : option Z)
    (searchTerm : string) (records : list AttendanceRecord.t)
    (students : list Student.t) : list Stat :=
  match reportType with
  | daily => []
  | monthly =>
      List.filter
        (fun stat => JS.includes (toLowerCase (Student.name (student stat)))
                                 (toLowerCase searchTerm))
        (List.map (studentStat year month records) students)
  end.

End MonthlyStats.

End Reports.

(** ** components/AdminPanel.tsx *)

Module AdminPanel.

(** The user form. *)
Record Form := mkForm {
  editingUser : option User.t;
  username : string;
  password : string;
  name : string;
  role : Role;
  assignedClass : string;
  userError : string;
  userSuccess : string
}.

Definition emptyForm : Form := mkForm None "" "" "" teacher "" "" "".

Definition handleEditClick (user : User.t) (f : Form) : Form :=
  mkForm (Some user) (User.username user) (User.password user) (User.name user)
    (User.role user)
    (match User.assignedClass user with
     | Some c => if JS.truthy (Some c) then c else ""
     | None => ""
     end)
    "" "".

Definition handleCancelEdit (f : Form) : Form := emptyForm.

(** The panel: the [users] held by [App] and the form. *)
Record State := mk {
  users : list User.t;
  form : Form
}.

Definition setMessages (err ok : string) (f : Form) : Form :=
  mkForm (editingUser f) (username f) (password f) (name f) (role f)
    (assignedClass f) err ok.

(** The [userData] that [handleUserSubmit] builds from the form. *)
Definition userData (f : Form) : User.t :=
  User.mk (username f) (password f) (name f) (role f)
    (match role f with teacher => Some (assignedClass f) | admin => None end).

(** [handleUserSubmit]. *)
Definition handleUserSubmit (st : State) : State :=
  let f := setMessages "" "" (form st) in
  if negb (JS.truthy (Some (username f))) || negb (JS.truthy (Some (password f)))
     || negb (JS.truthy (Some (name f)))
  then mk (users st) (setMessages "All fields are required" "" f)
  else if Role_eqb (role f) teacher && negb (JS.truthy (Some (assignedClass f)))
  then mk (users st) (setMessages "Teachers must be assigned a Class Section" "" f)
  else if (match editingUser f with None => true | Some _ => false end)
          && existsb (fun u => String.eqb (User.username u) (username f)) (users st)
  then mk (users st) (setMessages "Username already exists" "" f)
  else
    let userData := userData f in
    match editingUser f with
    | Some _ => mk (App.handleEditUser userData (users st)) (handleCancelEdit f)
    | None => mk (App.handleAddUser userData (users st)) (handleCancelEdit f)
    end.

(** What an administrator can do on the panel. *)
Inductive Event :=
| EditClick (row : nat)
| CancelClick
| SetName (s : string)
| SetUsername (s : string)
| SetPassword (s : string)
| SetRole (r : Role)
| SetAssignedClass (s : string)
| Submit
| DeleteClick (row : nat).

(** Whether the Delete button is rendered on the row of [user]. *)
Definition deleteShown (currentUser user : User.t) : bool :=
  negb (String.eqb (User.username user) "prahald")
  && negb (String.eqb (User.username user) (User.username currentUser)).

Definition step (currentUser : User.t) (st : State) (e : Event) : State :=
  if negb (Role_eqb (User.role currentUser) admin) then st
  else
    let f := form st in
    match e with
    | EditClick row =>
        match users st !! row with
        | Some user => mk (users st) (handleEditClick user f)
        | None => st
        end
    | CancelClick =>
        match editingUser f with
        | Some _ => mk (users st) (handleCancelEdit f)
        | None => st
        end
    | SetName s =>
        mk (users st) (mkForm (editingUser f) (username f) (password f) s (role f)
                         (assignedClass f) (userError f) (userSuccess f))
    | SetUsername s =>
        match editingUser f with
        | Some _ => st
        | None =>
            mk (users st) (mkForm (editingUser f) s (password f) (name f) (role f)
                             (assignedClass f) (userError f) (userSuccess f))
        end
    | SetPassword s =>
        mk (users st) (mkForm (editingUser f) (username f) s (name f) (role f)
                         (assignedClass f) (userError f) (userSuccess f))
    | SetRole r =>
        mk (users st) (mkForm (editingUser f) (username f) (password f) (name f) r
                         (assignedClass f) (userError f) (userSuccess f))
    | SetAssignedClass s =>
        match role f with
        | teacher =>
            mk (users st) (mkForm (editingUser f) (username f) (password f) (name f)
                             (role f) s (userError f) (userSuccess f))
        | admin => st
        end
    | Submit => handleUserSubmit st
    | DeleteClick row =>
        match users st !! row with
        | Some user =>
            if deleteShown currentUser user
            then mk (App.handleDeleteUser (User.username user) (users st)) f
            else st
        | None => st
        end
    end.

Definition run (currentUser : User.t) (st : State) (es : list Event) : State :=
  fold_left (step currentUser) es st.

(** The bootstrap account is present in a user list. *)
Definition hasBootstrap (us : list User.t) : bool :=
  existsb (fun u => String.eqb (User.username u) "prahald") us.

(** The bootstrap account is present and is an administrator. *)
Definition hasBootstrapAdmin (us : list User.t) : bool :=
  existsb (fun u => String.eqb (User.username u) "prahald"
                    && Role_eqb (User.role u) admin) us.

(** The event is a submission of the edit form that gives the bootstrap
    account the role of teacher. *)
Definition demotesBootstrap (st : State) (e : Event) : bool :=
  match e, editingUser (form st) with
  | Submit, Some _ =>
      String.eqb (username (form st)) "prahald" && Role_eqb (role (form st)) teacher
  | _, _ => false
  end.

End AdminPanel.


(** ** A reference host

    The date functions of the JavaScript host are parameters of the
    development.  This module gives concrete hosts, used to run the
    definitions on examples.

    Times of day: the host reads ["1970/01/01 "] followed by [H:MM:SS] or
    [HH:MM:SS], on the 24-hour clock or followed by a space and [AM] or
    [PM]; any other string is unreadable to it.  The value is counted
    from local midnight; the constant offset of the time zone, which a
    runtime adds to every value, is left out, as only differences are
    ever used.

    Dates: a date-only string [YYYY-MM-DD] denotes midnight UTC of that
    day, and [getFullYear] and [getMonth] read it in local time; the
    host has a fixed zone, given in minutes east of UTC. *)

Module Host.

Definition digit (c : ascii) : option Z :=
  let n := nat_of_ascii c in
  if (48 <=? n)%nat && (n <=? 57)%nat then Some (Z.of_nat (n - 48)) else None.

Definition digitAt (s : string) (i : nat) : option Z :=
  match String.get i s with
  | Some c => digit c
  | None => None
  end.

(** The decimal number written at positions [i .. i + n - 1] of [s]. *)
Fixpoint number (s : string) (i n : nat) (acc : Z) : option Z :=
  match n with
  | O => Some acc
  | S n' =>
      match digitAt s i with
      | Some d => number s (S i) n' (10 * acc + d)
      | None => None
      end
  end.

Definition charAt (s : string) (i : nat) (c : ascii) : bool :=
  match String.get i s with
  | Some c' => Ascii.eqb c c'
  | None => false
  end.

(** The hour of the day for an hour [h] read with a 12-hour marker:
    hours 0 to 12 are accepted, 12 counting as 0. *)
Definition hour12 (h shift : Z) : option Z :=
  if (h <=? 12)%Z then Some (h mod 12 + shift) else None.

(** The hour of the day from the hour read and what follows the
    seconds. *)
Definition hourOfDay (h : Z) (suffix : string) : option Z :=
  if String.eqb suffix "" then (if (h <? 24)%Z then Some h else None)
  else if String.eqb suffix " AM" || String.eqb suffix " am" then hour12 h 0
  else if String.eqb suffix " PM" || String.eqb suffix " pm" then hour12 h 12
  else None.

(** Milliseconds since midnight for a time of day whose hour has
    [hlen] digits. *)
Definition clockTimeAt (s : string) (hlen : nat) : option Z :=
  if charAt s hlen ":"%char && charAt s (hlen + 3) ":"%char then
    match number s 0 hlen 0, number s (hlen + 1) 2 0, number s (hlen + 4) 2 0 with
    | Some h, Some m, Some sec =>
        match hourOfDay h (String.substring (hlen + 6) (String.length s) s) with
        | Some h' =>
            if (m <? 60)%Z && (sec <? 60)%Z
            then Some (((h' * 60 + m) * 60 + sec) * 1000)
            else None
        | None => None
        end
    | _, _, _ => None
    end
  else None.

Definition clockTime (s : string) : option Z :=
  match clockTimeAt s 1 with
  | Some t => Some t
  | None => clockTimeAt s 2
  end.

(** [new Date(s).getTime()] for ["1970/01/01 "] followed by a time of
    day. *)
Definition Date_getTime (s : string) : option Z :=
  if String.prefix "1970/01/01 " s
  then clockTime (String.substring 11 (String.length s) s)
  else None.

(** Days from 1970-01-01 to the given day of the proleptic Gregorian
    calendar; a day number beyond the end of the month runs into the
    next month. *)
Definition daysFromCivil (y m d : Z) : Z :=
  let y := if (m <=? 2)%Z then y - 1 else y in
  let era := y / 400 in
  let yoe := y - era * 400 in
  let doy := (153 * (if (2 <? m)%Z then m - 3 else m + 9) + 2) / 5 + d - 1 in
  let doe := yoe * 365 + yoe / 4 - yoe / 100 + doy in
  era * 146097 + doe - 719468.

(** Year, month (1 to 12) and day of a day number. *)
Definition civilFromDays (z : Z) : Z * Z * Z :=
  let z := z + 719468 in
  let era := z / 146097 in
  let doe := z - era * 146097 in
  let yoe := (doe - doe / 1460 + doe / 36524 - doe / 146096) / 365 in
  let doy := doe - (365 * yoe + yoe / 4 - yoe / 100) in
  let mp := (5 * doy + 2) / 153 in
  let d := doy - (153 * mp + 2) / 5 + 1 in
  let m := if (mp <? 10)%Z then mp + 3 else mp - 9 in
  (if (m <=? 2)%Z then yoe + era * 400 + 1 else yoe + era * 400, m, d).

Definition msPerDay : Z := 86400000.

(** The time value of a date-only string: midnight UTC. *)
Definition parseDate (s : string) : option Z :=
  if (String.length s =? 10)%nat && charAt s 4 "-"%char && charAt s 7 "-"%char then
    match number s 0 4 0, number s 5 2 0, number s 8 2 0 with
    | Some y, Some m, Some d =>
        if (1 <=? m)%Z && (m <=? 12)%Z && (1 <=? d)%Z && (d <=? 31)%Z
        then Some (daysFromCivil y m d * msPerDay)
        else None
    | _, _, _ => None
    end
  else None.

(** The local calendar day of a time value in the zone [zone], minutes
    east of UTC. *)
Definition localDay (zone : Z) (t : Z) : Z * Z * Z :=
  civilFromDays ((t + zone * 60000) / msPerDay).

Definition Date_getFullYear (zone : Z) (s : string) : option Z :=
  option_map (fun t => fst (fst (localDay zone t))) (parseDate s).

Definition Date_getMonth (zone : Z) (s : string) : option Z :=
  option_map (fun t => snd (fst (localDay zone t)) - 1) (parseDate s).

(** Three zones: UTC, India (UTC+5:30) and New York in winter
    (UTC-5). *)
Definition utc : Z := 0.
Definition kolkata : Z := 330.
Definition newYork : Z := -300.

End Host.

(** ** The properties, in the words of the specification *)

Module Spec.

(** An event of the ledger falls in the deduplication window of a
    candidate: same student, same date, and times of day less than 60
    seconds apart.  The time of day of a timestamp is the number of
    milliseconds the host reads from it when it follows the date
    1970/01/01. *)
Definition inWindow (Date_getTime : string -> option Z)
    (candidate r : AttendanceRecord.t) : Prop :=
  AttendanceRecord.studentId r = AttendanceRecord.studentId candidate /\
  AttendanceRecord.date r = AttendanceRecord.date candidate /\
  exists t1 t2 : Z,
    Date_getTime ("1970/01/01 " +:+ AttendanceRecord.timestamp r) = Some t1 /\
    Date_getTime ("1970/01/01 " +:+ AttendanceRecord.timestamp candidate) = Some t2 /\
    Z.abs (t1 - t2) < 60 * 1000.

(** The year and the month written in a date [YYYY-MM-DD], and a date
    falling in a month of a year. *)
Definition writtenYear (d : string) : option Z := Host.number d 0 4 0.
Definition writtenMonth (d : string) : option Z := Host.number d 5 2 0.

Definition fallsIn (year month : Z) (d : string) : Prop :=
  writtenYear d = Some year /\ writtenMonth d = Some month.

#[global] Instance fallsIn_dec (year month : Z) (d : string) :
  Decision (fallsIn year month d).
Proof. unfold fallsIn. apply _. Defined.

(** A match id resolves in a reference set. *)
Definition resolves (students : list Student.t) (matchId : option string) : Prop :=
  exists s, s ∈ students /\ matchId = Some (Student.id s).

(** The verdict table over a reference set, with "resolves" read as
    plain membership. *)
Definition verdictTable (students : list Student.t) : Prop :=
  forall clock result,
    (~ resolves students (ScanResult.matchId result) ->
     LiveScanner.marked (LiveScanner.processResult students clock result) = None) /\
    (resolves students (ScanResult.matchId result) ->
     ScanResult.isRealPerson result = true ->
     exists r,
       LiveScanner.marked (LiveScanner.processResult students clock result) = Some r /\
       AttendanceRecord.status r = PRESENT /\
       AttendanceRecord.confidence r = ScanResult.confidence result /\
       AttendanceRecord.emotion r = Some (ScanResult.emotion result) /\
       AttendanceRecord.notes r = Some (ScanResult.description result)) /\
    (resolves students (ScanResult.matchId result) ->
     ScanResult.isRealPerson result = false ->
     exists r,
       LiveScanner.marked (LiveScanner.processResult students clock result) = Some r /\
       AttendanceRecord.status r = PROXY_ATTEMPT /\
       AttendanceRecord.notes r =
         Some ("Spoofing Detected: " +:+ ScanResult.description result)).

(** A teacher sees exactly the students of the assigned class, whatever
    the assigned class is. *)
Definition teacherSeesOwnClass : Prop :=
  forall (u : User.t) (students : list Student.t),
    User.role u = teacher ->
    forall s, s ∈ App.filteredStudents (Some u) students <->
              s ∈ students /\ Some (Student.classSection s) = User.assignedClass u.

(** The bootstrap administrator survives every sequence of operations,
    role included. *)
Definition bootstrapAdminForever : Prop :=
  forall currentUser st es,
    AdminPanel.hasBootstrapAdmin (AdminPanel.users st) = true ->
    AdminPanel.hasBootstrapAdmin
      (AdminPanel.users (AdminPanel.run currentUser st es)) = true.

(** An unresolved match id is handled exactly like a null one: nothing
    marked, and the description logged as the reason. *)
Definition unknownLikeNull : Prop :=
  forall students clock result,
    ~ resolves students (ScanResult.matchId result) ->
    LiveScanner.processResult students clock result =
    LiveScanner.mkInterp None (Some ("ℹ️ " +:+ ScanResult.description result)).

End Spec.

(** The reference parts of one student, and the request built for a pool
    of reference students. *)
Definition studentParts (student : Student.t) : list GeminiService.Part :=
  [GeminiService.text
     ("Student ID: " +:+ Student.id student +:+ " - Name: " +:+ Student.name student);
   GeminiService.inlineData "image/jpeg" (GeminiService.clean (Student.photoUrl student))].

Definition requestFor (frame : string) (pool : list Student.t) : list GeminiService.Part :=
  [GeminiService.text "TARGET IMAGE (Current Camera Feed):";
   GeminiService.inlineData "image/jpeg" (GeminiService.clean frame);
   GeminiService.text "REFERENCE IMAGES (Registered Students):"]
  ++ flat_map studentParts pool
  ++ [GeminiService.text "Analyze the Target Image against the Reference Images. If a match is found with high confidence, return the ID. If strictly no match, return null."].

(** ** Sample data *)

Module Sample.

Definition student (id name classSection : string) : Student.t :=
  Student.mk id name "1" classSection "data:image/jpeg;base64,AAAA" "2024-03-01".

Definition event (id studentId date timestamp : string) (status : AttendanceStatus)
    : AttendanceRecord.t :=
  AttendanceRecord.mk id studentId "Asha" timestamp date status (92 # 100) (Some "Focused")
    (Some "clear match").

Definition S101 : Student.t := student "S101" "Asha" "7-C".
Definition S202 : Student.t := student "S202" "Ravi" "10-A".
Definition S303 : Student.t := student "S303" "Meera" "10-B".

Definition teacher7C : User.t := User.mk "t7c" "pw" "Ms. Rao" teacher (Some "7-C").
Definition teacher10A : User.t := User.mk "t10a" "pw" "Mr. Das" teacher (Some "10-A").
Definition teacherNoClass : User.t := User.mk "tnone" "pw" "Mr. Roy" teacher None.
Definition teacherEmptyClass : User.t := User.mk "tempty" "pw" "Ms. Sen" teacher (Some "").

Definition clock : LiveScanner.Clock :=
  LiveScanner.mkClock "1709287200000" "10:00:00" "2024-03-01".

Definition verdict (matchId : option string) (isRealPerson : bool) : ScanResult.t :=
  ScanResult.mk matchId (92 # 100) isRealPerson "Focused" "clear match".

(** The world reached when the camera is started, the screen has
    followed, and Scan Now is pressed: one analysis is in flight. *)
Definition scanning : LiveScanner.World :=
  LiveScanner.run Host.Date_getTime [S101] (LiveScanner.mount [])
    [LiveScanner.StartCamera true; LiveScanner.Rendered;
     LiveScanner.ScanNow true "data:image/jpeg;base64,FFFF"].

(** Scans on three days of March 2024 and one of April. *)
Definition marchLedger : list AttendanceRecord.t :=
  [event "5" "S101" "2024-04-02" "10:00:00" PRESENT;
   event "4" "S202" "2024-03-04" "10:00:00" PROXY_ATTEMPT;
   event "3" "S101" "2024-03-02" "10:00:00" PRESENT;
   event "2" "S202" "2024-03-01" "10:00:00" PRESENT;
   event "1" "S101" "2024-03-01" "09:00:00" PRESENT].

(** The administrator edits the bootstrap account into a teacher. *)
Definition demotion : list AdminPanel.Event :=
  [AdminPanel.EditClick 0; AdminPanel.SetRole teacher;
   AdminPanel.SetAssignedClass "10-A"; AdminPanel.Submit].

(** Six registered students. *)
Definition six : list Student.t :=
  [student "1" "A" "7-C"; student "2" "B" "7-C"; student "3" "C" "7-C";
   student "4" "D" "7-C"; student "5" "E" "7-C"; student "6" "F" "7-C"].

Definition lateEvent : AttendanceRecord.t :=
  event "1" "S101" "2024-03-01" "23:59:50" PRESENT.

Definition earlyCandidate : AttendanceRecord.t :=
  event "2" "S101" "2024-03-02" "00:00:05" PRESENT.

End Sample.


(** ** Further JavaScript primitives: joining and printing *)

Module JSText.

(** The line feed and the double quote. *)
Definition LF : string := String (ascii_of_nat 10) EmptyString.
Definition DQUOTE : string := String (ascii_of_nat 34) EmptyString.

(** [l.join(sep)] on an array of strings. *)
Fixpoint join (sep : string) (l : list string) : string :=
  match l with
  | [] => ""
  | [x] => x
  | x :: rest => x +:+ sep +:+ join sep rest
  end.

(** What [join] and a template literal make of an integer-valued number
    (below 10^21 in absolute value, where JavaScript prints all digits). *)
Definition Number_toString (z : Z) : string :=
  NilZero.string_of_int (Z.to_int z).

(** What [join] makes of a [string | undefined] element. *)
Definition joined (o : option string) : string :=
  match o with Some s => s | None => "" end.

(** What a template literal makes of a [string | undefined]. *)
Definition interpolated (o : option string) : string :=
  match o with Some s => s | None => "undefined" end.

(** No comma occurs in the string. *)
Fixpoint commaFree (s : string) : bool :=
  match s with
  | EmptyString => true
  | String c rest => negb (Ascii.eqb c ","%char) && commaFree rest
  end.

End JSText.

(** ** App.tsx: the student handlers and the session *)

Module AppRegistry.

Definition handleAddStudent (student : Student.t) (prev : list Student.t)
    : list Student.t :=
  prev ++ [student].

Definition handleEditStudent (updatedStudent : Student.t) (prev : list Student.t)
    : list Student.t :=
  List.map
    (fun s => if String.eqb (Student.id s) (Student.id updatedStudent)
              then updatedStudent else s)
    prev.

Definition handleDeleteStudent (id : string) (prev : list Student.t) : list Student.t :=
  List.filter (fun s => negb (String.eqb (Student.id s) id)) prev.

End AppRegistry.

(** ** components/StudentRegistry.tsx: the registration form *)

Module StudentRegistry.

(** The form state; [None] is [null]. *)
Record Form := mkForm {
  editingId : option string;
  capturedImage : option string;
  name : string;
  rollNo : string;
  classSection : string
}.

Definition emptyForm : Form := mkForm None None "" "" "".

(** The students held by [App] and the form.  The camera of the form,
    which only produces the captured image, is not part of the state. *)
Record State := mk {
  students : list Student.t;
  form : Form
}.

Definition handleEditClick (student : Student.t) (f : Form) : Form :=
  mkForm (Some (Student.id student)) (Some (Student.photoUrl student))
    (Student.name student) (Student.rollNumber student) (Student.classSection student).

Definition handleCancelEdit (currentUser : User.t) (f : Form) : Form :=
  mkForm None None "" ""
    (match User.role currentUser, User.assignedClass currentUser with
     | teacher, Some c => if JS.truthy (Some c) then c else ""
     | _, _ => ""
     end).

(** The effect with dependencies [currentUser] and [editingId]: outside
    an edit, the class of a teacher is filled in. *)
Definition autoFill (currentUser : User.t) (f : Form) : Form :=
  match User.role currentUser, User.assignedClass currentUser with
  | teacher, Some c =>
      if negb (JS.truthy (editingId f)) && JS.truthy (Some c)
      then mkForm (editingId f) (capturedImage f) (name f) (rollNo f) c
      else f
  | _, _ => f
  end.

(** [handleSubmit]; [now] is [Date.now()] and [iso] is
    [new Date().toISOString()].  An incomplete form raises an alert and
    changes nothing.  In the editing branch [editingId] is truthy, hence
    a string. *)
Definition handleSubmit (currentUser : User.t) (now : Z) (iso : string)
    (st : State) : State :=
  let f := form st in
  if String.eqb (name f) "" || String.eqb (rollNo f) ""
     || String.eqb (classSection f) "" || negb (JS.truthy (capturedImage f))
  then st
  else
    let image := default "" (capturedImage f) in
    if JS.truthy (editingId f) then
      mk (AppRegistry.handleEditStudent
            (Student.mk (default "" (editingId f)) (name f) (rollNo f)
               (classSection f) image iso)
            (students st))
         (handleCancelEdit currentUser f)
    else
      mk (AppRegistry.handleAddStudent
            (Student.mk (JSText.Number_toString now) (name f) (rollNo f)
               (classSection f) image iso)
            (students st))
         (mkForm (editingId f) None "" ""
            (match User.role currentUser with
             | admin => ""
             | teacher => classSection f
             end)).

(** The actions of the registry: the pencil and the bin of the [i]-th
    listed student, the form fields, and the submit button.  The list
    shown is the one [App] passes: the students visible to the user. *)
Inductive Event :=
| EditClick (i : nat)
| CancelEdit
| SetName (s : string)
| SetRollNo (s : string)
| SetClassSection (s : string)
| SetCapturedImage (s : string)
| Submit (now : Z) (iso : string)
| DeleteClick (i : nat).

(** The handlers of the events. *)
Definition handle (currentUser : User.t) (st : State) (e : Event) : State :=
  let f := form st in
  let listed := App.filteredStudents (Some currentUser) (students st) in
  match e with
  | EditClick i =>
      match listed !! i with
      | Some student => mk (students st) (handleEditClick student f)
      | None => st
      end
  | CancelEdit => mk (students st) (handleCancelEdit currentUser f)
  | SetName s =>
      mk (students st) (mkForm (editingId f) (capturedImage f) s (rollNo f) (classSection f))
  | SetRollNo s =>
      mk (students st) (mkForm (editingId f) (capturedImage f) (name f) s (classSection f))
  | SetClassSection s =>
      mk (students st) (mkForm (editingId f) (capturedImage f) (name f) (rollNo f) s)
  | SetCapturedImage s =>
      mk (students st) (mkForm (editingId f) (Some s) (name f) (rollNo f) (classSection f))
  | Submit now iso => handleSubmit currentUser now iso st
  | DeleteClick i =>
      match listed !! i with
      | Some student =>
          mk (AppRegistry.handleDeleteStudent (Student.id student) (students st)) f
      | None => st
      end
  end.

(** One event: its handler, then the effect when [editingId] has
    changed. *)
Definition step (currentUser : User.t) (st : State) (e : Event) : State :=
  let st' := handle currentUser st e in
  if bool_decide (editingId (form st') = editingId (form st)) then st'
  else mk (students st') (autoFill currentUser (form st')).

Definition run (currentUser : User.t) (st : State) (es : list Event) : State :=
  fold_left (step currentUser) es st.

(** The registry as [App] starts it: [INITIAL_STUDENTS] is empty, and the
    effect has run once. *)
Definition initial (currentUser : User.t) : State :=
  mk [] (autoFill currentUser emptyForm).

End StudentRegistry.

(** ** components/Login.tsx *)

Module Login.

(** [handleLogin]: the user handed to [onLogin], or the error shown. *)
Definition handleLogin (users : list User.t) (username password : string)
    : User.t + string :=
  match List.find
          (fun u => String.eqb (User.username u) username
                    && String.eqb (User.password u) password)
          users with
  | Some user => inl user
  | None => inr "Invalid username or password"
  end.

End Login.

(** ** components/Dashboard.tsx *)

Module Dashboard.

Section Cards.

(** [new Date().toISOString().split('T')[0]]. *)
Variable today : string.

Definition totalStudents (students : list Student.t) : Z :=
  Z.of_nat (length students).

Definition todaysRecords (records : list AttendanceRecord.t) : list AttendanceRecord.t :=
  List.filter (fun r => String.eqb (AttendanceRecord.date r) today) records.

(** The size of the set of student ids marked PRESENT today. *)
Definition presentCount (records : list AttendanceRecord.t) : Z :=
  let ids : gset string :=
    list_to_set
      (List.map AttendanceRecord.studentId
         (List.filter (fun r => AttendanceStatus_eqb (AttendanceRecord.status r) PRESENT)
            (todaysRecords records))) in
  Z.of_nat (size ids).

Definition proxyAttempts (records : list AttendanceRecord.t) : Z :=
  Z.of_nat (length
    (List.filter (fun r => AttendanceStatus_eqb (AttendanceRecord.status r) PROXY_ATTEMPT)
       (todaysRecords records))).

Definition absentCount (students : list Student.t)
    (records : list AttendanceRecord.t) : Z :=
  totalStudents students - presentCount records.

(** The value shown on the Absent Today card and in the pie chart. *)
Definition absentShown (students : list Student.t)
    (records : list AttendanceRecord.t) : Z :=
  let absentCount := absentCount students records in
  if (absentCount <? 0)%Z then 0 else absentCount.

(** The labels and values of the four cards.  The pie chart and the
    Friday bar reuse [presentCount] and [absentShown]; the bars of the
    other days are placeholders computed in floating point and are not
    modelled. *)
Definition stats (students : list Student.t) (records : list AttendanceRecord.t)
    : list (string * Z) :=
  [("Total Students", totalStudents students);
   ("Present Today", presentCount records);
   ("Absent Today", absentShown students records);
   ("Proxy Attempts", proxyAttempts records)].

End Cards.

End Dashboard.

(** ** components/Reports.tsx: the CSV export *)

Module Csv.

Section ExportCSV.

(** What [join] makes of the number [r.confidence]. *)
Variable Number_toString_real : Q -> string.

Definition statusText (s : AttendanceStatus) : string :=
  match s with
  | PRESENT => "PRESENT"
  | ABSENT => "ABSENT"
  | PROXY_ATTEMPT => "PROXY_ATTEMPT"
  end.

Definition monthlyHeaders : list string :=
  ["Student Name"; "Roll No"; "Class"; "Total Present"; "Total Absent"; "Percentage"].

Definition dailyHeaders : list string :=
  ["ID"; "Student Name"; "Date"; "Time"; "Status"; "Confidence"; "Emotion"; "Notes"].

(** The array joined into the line of one monthly row. *)
Definition monthlyFields (s : Reports.Stat) : list string :=
  [Student.name (Reports.student s);
   Student.rollNumber (Reports.student s);
   Student.classSection (Reports.student s);
   JSText.Number_toString (Reports.present s);
   JSText.Number_toString (Reports.absent s);
   JSText.Number_toString (Reports.percentage s) +:+ "%"].

(** The array joined into the line of one record of the daily dump. *)
Definition dailyFields (r : AttendanceRecord.t) : list string :=
  [AttendanceRecord.studentId r;
   AttendanceRecord.studentName r;
   AttendanceRecord.date r;
   AttendanceRecord.timestamp r;
   statusText (AttendanceRecord.status r);
   Number_toString_real (AttendanceRecord.confidence r);
   JSText.joined (AttendanceRecord.emotion r);
   JSText.DQUOTE +:+ JSText.interpolated (AttendanceRecord.notes r) +:+ JSText.DQUOTE].

(** [csvContent] as [exportCSV] builds it. *)
Definition exportCSV (reportType : Reports.ReportType)
    (monthlyStats : list Reports.Stat) (records : list AttendanceRecord.t) : string :=
  match reportType with
  | Reports.monthly =>
      JSText.join JSText.LF
        (JSText.join "," monthlyHeaders
         :: List.map (fun s => JSText.join "," (monthlyFields s)) monthlyStats)
  | Reports.daily =>
      JSText.join JSText.LF
        (JSText.join "," dailyHeaders
         :: List.map (fun r => JSText.join "," (dailyFields r)) records)
  end.

End ExportCSV.

End Csv.

(** ** Invariants of the stored data *)

Module Inv.

(** No two events of the ledger fall in each other's deduplication
    window. *)
Fixpoint wellSpaced (Date_getTime : string -> option Z)
    (l : list AttendanceRecord.t) : Prop :=
  match l with
  | [] => True
  | r :: rest =>
      (forall e, e ∈ rest -> ~ Spec.inWindow Date_getTime r e) /\
      wellSpaced Date_getTime rest
  end.

(** Every event is PRESENT or PROXY_ATTEMPT and carries the id and the
    name of a student of the pool. *)
Definition fromPool (students : list Student.t) (r : AttendanceRecord.t) : Prop :=
  AttendanceRecord.status r <> ABSENT /\
  exists s, s ∈ students /\
            AttendanceRecord.studentId r = Student.id s /\
            AttendanceRecord.studentName r = Student.name s.

(** Every call in flight was made with the pool [students]. *)
Definition pendingOn (students : list Student.t) (w : LiveScanner.World) : Prop :=
  forall call,
    call ∈ LiveScanner.pending (LiveScanner.scanner w) ->
    LiveScanner.studs call = students.

(** The user names of a list are pairwise distinct. *)
Definition uniqueNames (us : list User.t) : Prop :=
  NoDup (List.map User.username us).

(** Teachers carry a non-empty class, administrators carry none. *)
Definition classed (u : User.t) : Prop :=
  match User.role u with
  | teacher => JS.truthy (User.assignedClass u) = true
  | admin => User.assignedClass u = None
  end.

End Inv.

(** ** Further invariants and sample data *)

Module Inv2.

(** While the scanner is processing, a call is in flight. *)
Definition busyHasPending (w : LiveScanner.World) : Prop :=
  LiveScanner.isProcessing (LiveScanner.scanner w) = true ->
  LiveScanner.pending (LiveScanner.scanner w) <> [].

(** An interval is installed only by a render that is not processing,
    and is cleared by the first render that is. *)
Definition intervalIdle (w : LiveScanner.World) : Prop :=
  forall r, LiveScanner.interval w = Some r ->
    LiveScanner.r_isProcessing r = false /\
    LiveScanner.r_isProcessing (LiveScanner.shown w) = false.

(** The log holds at most ten lines. *)
Definition logBounded (w : LiveScanner.World) : Prop :=
  (length (LiveScanner.logs (LiveScanner.scanner w)) <= 10)%nat.

End Inv2.

Module Cases.

(** A detection, its repetition ten seconds later, and one two minutes
    later. *)
Definition first : AttendanceRecord.t :=
  Sample.event "1" "S101" "2024-03-01" "10:00:00" PRESENT.
Definition repeated : AttendanceRecord.t :=
  Sample.event "2" "S101" "2024-03-01" "10:00:10" PROXY_ATTEMPT.
Definition later : AttendanceRecord.t :=
  Sample.event "3" "S101" "2024-03-01" "10:02:00" PRESENT.

(** A detection stamped with Arabic-Indic digits, as the Arabic locales
    write the time, which no host reads as a time. *)
Definition unparsed : AttendanceRecord.t :=
  Sample.event "4" "S101" "2024-03-01" "١٠:٠٠:٠٠" PRESENT.

(** The scanner with the camera on, as shown on screen, and nothing in
    flight. *)
Definition cameraOn : LiveScanner.World :=
  LiveScanner.run Host.Date_getTime [Sample.S101] (LiveScanner.mount [])
    [LiveScanner.StartCamera true; LiveScanner.Rendered].

(** A scan started with no student registered. *)
Definition scanningNobody : LiveScanner.World :=
  LiveScanner.run Host.Date_getTime [] (LiveScanner.mount [])
    [LiveScanner.StartCamera true; LiveScanner.Rendered;
     LiveScanner.ScanNow true "data:image/jpeg;base64,FFFF"].

(** An analyzer that always throws. *)
Definition failing (parts : list GeminiService.Part) : GeminiService.Outcome :=
  GeminiService.Failed.

End Cases.

(** The number of commas of a string. *)
Fixpoint commas (s : string) : nat :=
  match s with
  | EmptyString => 0
  | String c rest => (if Ascii.eqb c ","%char then 1 else 0) + commas rest
  end.

Module ReportCases.

(** Two PRESENT detections of S101 on the same day, an hour apart. *)
Definition twiceADay : list AttendanceRecord.t :=
  [Sample.event "2" "S101" "2024-03-01" "11:00:00" PRESENT;
   Sample.event "1" "S101" "2024-03-01" "10:00:00" PRESENT].

(** One detection of S101 on the first of March 2024, at ten in the
    morning in New York (15:00 UTC), stamped by an en-US browser. *)
Definition firstOfMarch : list AttendanceRecord.t :=
  [Sample.event "1709305200000" "S101" "2024-03-01" "10:00:00 AM" PRESENT].

(** A student whose name is written with a comma. *)
Definition commaName : Student.t := Sample.student "S404" "Rao, Asha" "7-C".

End ReportCases.

Module Sessions.

(** The panel as the bootstrap administrator first finds it. *)
Definition fresh : AdminPanel.State :=
  AdminPanel.mk [App.SUPER_ADMIN] AdminPanel.emptyForm.

(** A teacher of 10-A is created, a second creation under the same name
    is attempted, and the teacher is deleted again. *)
Definition session : list AdminPanel.Event :=
  [AdminPanel.SetName "Mr. Das"; AdminPanel.SetUsername "t10a";
   AdminPanel.SetPassword "pw"; AdminPanel.SetAssignedClass "10-A";
   AdminPanel.Submit;
   AdminPanel.SetName "Mr. Das II"; AdminPanel.SetUsername "t10a";
   AdminPanel.SetPassword "pw2"; AdminPanel.SetAssignedClass "10-B";
   AdminPanel.Submit;
   AdminPanel.DeleteClick 0; AdminPanel.DeleteClick 1].

(** A scan of S101 from start to settlement. *)
Definition scanOfS101 : list LiveScanner.Event :=
  [LiveScanner.StartCamera true; LiveScanner.Rendered;
   LiveScanner.ScanNow true "data:image/jpeg;base64,FFFF";
   LiveScanner.Settled
     (fun _ => GeminiService.Returned (Sample.verdict (Some "S101") true))
     Sample.clock].

(** The camera is started and stopped, then refused ten times, then
    started: thirteen lines are logged. *)
Definition manyToggles : list LiveScanner.Event :=
  LiveScanner.StartCamera true :: LiveScanner.Rendered :: LiveScanner.StopCamera
  :: LiveScanner.StartCamera false :: LiveScanner.StartCamera false
  :: LiveScanner.StartCamera false :: LiveScanner.StartCamera false
  :: LiveScanner.StartCamera false :: LiveScanner.StartCamera false
  :: LiveScanner.StartCamera false :: LiveScanner.StartCamera false
  :: LiveScanner.StartCamera false :: LiveScanner.StartCamera false
  :: [LiveScanner.StartCamera true].

(** The race on the single-flight guard.  Auto mode is on; the interval
    fires and its [handleScan] starts an analysis; before React has
    re-rendered, Scan Now is pressed on the screen that still shows the
    scanner idle. *)
Definition race : list LiveScanner.Event :=
  [LiveScanner.StartCamera true; LiveScanner.Rendered; LiveScanner.ToggleAuto;
   LiveScanner.Tick true "data:image/jpeg;base64,AAAA";
   LiveScanner.ScanNow true "data:image/jpeg;base64,BBBB"].

(** The same history with React re-rendering after the interval has
    fired. *)
Definition noRace : list LiveScanner.Event :=
  [LiveScanner.StartCamera true; LiveScanner.Rendered; LiveScanner.ToggleAuto;
   LiveScanner.Tick true "data:image/jpeg;base64,AAAA"; LiveScanner.Rendered;
   LiveScanner.ScanNow true "data:image/jpeg;base64,BBBB"].

(** The analyzer recognises S101, a real person. *)
Definition seesS101 (parts : list GeminiService.Part) : GeminiService.Outcome :=
  GeminiService.Returned (Sample.verdict (Some "S101") true).

(** The two analyses of the race settle at 10:00:08 and 10:00:09. *)
Definition raceSettled : list LiveScanner.Event :=
  race ++
  [LiveScanner.Settled seesS101
     (LiveScanner.mkClock "1709287208000" "10:00:08" "2024-03-01");
   LiveScanner.Settled seesS101
     (LiveScanner.mkClock "1709287209000" "10:00:09" "2024-03-01")].

(** The records the two settlements of the race build. *)
Definition markedAt08 : AttendanceRecord.t :=
  Sample.event "1709287208000" "S101" "2024-03-01" "10:00:08" PRESENT.
Definition markedAt09 : AttendanceRecord.t :=
  Sample.event "1709287209000" "S101" "2024-03-01" "10:00:09" PRESENT.

(** The history up to the firing of the interval. *)
Definition tickFired : list LiveScanner.Event :=
  [LiveScanner.StartCamera true; LiveScanner.Rendered; LiveScanner.ToggleAuto;
   LiveScanner.Tick true "data:image/jpeg;base64,AAAA"].

End Sessions.

(** * Properties *)

(** ** The attendance ledger *)

Section LedgerFacts.

Variable Date_getTime : string -> option Z.

Local Abbreviation mark := (App.handleMarkAttendance Date_getTime).
Local Abbreviation accepted := (App.accepted Date_getTime).
Local Abbreviation inWindow := (Spec.inWindow Date_getTime).

Lemma abs_diff_lt_spec (a b : option Z) (bound : Z) :
  JS.abs_diff_lt a b bound = true <->
  exists x y, a = Some x /\ b = Some y /\ Z.abs (x - y) < bound.
Proof.
  unfold JS.abs_diff_lt. split.
  - destruct a as [x|], b as [y|]; try discriminate.
    intros H. exists x, y. repeat split. now apply Z.ltb_lt.
  - intros (x & y & -> & -> & H). now apply Z.ltb_lt.
Qed.

Lemma isRecent_spec (candidate r : AttendanceRecord.t) :
  App.isRecent Date_getTime candidate r = true <-> inWindow candidate r.
Proof.
  unfold App.isRecent, Spec.inWindow, App.timeOfDay.
  rewrite !andb_true_iff, !String.eqb_eq, abs_diff_lt_spec.
  change (60 * 1000) with 60000. tauto.
Qed.

Lemma recentRecord_Some (records : list AttendanceRecord.t) candidate :
  (exists r, App.recentRecord Date_getTime records candidate = Some r) <->
  exists r, r ∈ records /\ inWindow candidate r.
Proof.
  unfold App.recentRecord. split.
  - intros [r Hr]. apply List.find_some in Hr as [Hin Hrec].
    exists r. split; [now apply list_elem_of_In | now apply isRecent_spec].
  - intros (r & Hin & Hw).
    destruct (List.find _ records) as [r'|] eqn:E; [now exists r'|].
    apply list_elem_of_In in Hin. apply isRecent_spec in Hw.
    pose proof (List.find_none _ _ E r Hin) as Hn. congruence.
Qed.

Lemma accepted_false_iff (records : list AttendanceRecord.t) candidate :
  accepted records candidate = false <->
  exists r, r ∈ records /\ inWindow candidate r.
Proof.
  rewrite <- recentRecord_Some. unfold App.accepted.
  destruct (App.recentRecord _ _ _) as [r|]; split; try discriminate; eauto.
  intros [r Hr]. discriminate.
Qed.

Lemma append_cases (seen : list AttendanceRecord.t) candidate
    (prev : list AttendanceRecord.t) :
  mark seen candidate prev =
  if accepted seen candidate then candidate :: prev else prev.
Proof.
  unfold App.handleMarkAttendance, App.accepted.
  now destruct (App.recentRecord _ _ _).
Qed.

(** What one handler does: it leaves the state alone exactly when the
    list it closes over holds an event in the window of the candidate,
    and otherwise puts the candidate at the head of the state, whatever
    the state holds. *)
Lemma handler_rejects_iff_seen
    (seen prev : list AttendanceRecord.t) (candidate : AttendanceRecord.t) :
  (mark seen candidate prev = prev <->
   exists r, r ∈ seen /\ inWindow candidate r) /\
  (~ (exists r, r ∈ seen /\ inWindow candidate r) ->
   mark seen candidate prev = candidate :: prev).
Proof.
  rewrite append_cases, <- accepted_false_iff.
  destruct (accepted seen candidate); split.
  - split; [|discriminate]. intros H.
    apply (f_equal (@length _)) in H. simpl in H. lia.
  - auto.
  - tauto.
  - intros H. now destruct H.
Qed.

(** A rejected candidate leaves the size of the ledger as it was. *)
Lemma append_rejected_length (seen prev : list AttendanceRecord.t) candidate r :
  r ∈ seen -> inWindow candidate r ->
  length (mark seen candidate prev) = length prev.
Proof.
  intros Hin Hw. rewrite append_cases.
  now rewrite (proj2 (accepted_false_iff seen candidate)) by eauto.
Qed.

(** An event of another date never stands in the way of a candidate. *)
Lemma other_date_not_recent (candidate e : AttendanceRecord.t) :
  AttendanceRecord.date e <> AttendanceRecord.date candidate ->
  App.isRecent Date_getTime candidate e = false.
Proof.
  intros Hd. apply not_true_is_false. rewrite isRecent_spec.
  intros (_ & H & _). contradiction.
Qed.

Lemma accepted_cons_other_date (records : list AttendanceRecord.t) candidate e :
  AttendanceRecord.date e <> AttendanceRecord.date candidate ->
  accepted (e :: records) candidate = accepted records candidate.
Proof.
  intros Hd. unfold App.accepted, App.recentRecord. simpl.
  now rewrite other_date_not_recent.
Qed.

(** C5.  Deduplication never merges across dates: once an event [e] is
    accepted, a candidate of the same student on another date is accepted
    as well whenever the rest of the ledger accepts it, whatever the two
    times of day are (23:59:50 and 00:00:05 included).  This holds for
    every list the first handler may close over ([seen1]) and every state
    ([prev]); the second handler closes over [e] and anything else
    ([seen2]).  With the three lists equal, these are two consecutive
    calls on one ledger. *)
Theorem cross_date_both_accepted
    (seen1 seen2 prev : list AttendanceRecord.t) (e candidate : AttendanceRecord.t) :
  AttendanceRecord.studentId e = AttendanceRecord.studentId candidate ->
  AttendanceRecord.date e <> AttendanceRecord.date candidate ->
  accepted seen1 e = true ->
  accepted seen2 candidate = true ->
  accepted (e :: seen2) candidate = true /\
  mark (e :: seen2) candidate (mark seen1 e prev) = candidate :: e :: prev.
Proof.
  intros _ Hd He Hc.
  rewrite (append_cases seen1 e), He.
  rewrite append_cases, accepted_cons_other_date by exact Hd.
  now rewrite Hc.
Qed.

End LedgerFacts.

(** The midnight scenario, on the reference host: an event at 23:59:50
    and a candidate of the same student at 00:00:05 the next day, marked
    one after the other on an empty ledger. *)
Lemma cross_date_midnight :
  App.accepted Host.Date_getTime [Sample.lateEvent] Sample.earlyCandidate = true /\
  App.handleMarkAttendance Host.Date_getTime [Sample.lateEvent] Sample.earlyCandidate
    (App.handleMarkAttendance Host.Date_getTime [] Sample.lateEvent [])
  = [Sample.earlyCandidate; Sample.lateEvent].
Proof.
  apply (cross_date_both_accepted Host.Date_getTime [] [] []).
  - reflexivity.
  - vm_compute. discriminate.
  - reflexivity.
  - reflexivity.
Defined.

(** Two events of one student at the same time of day on two dates are
    both stored. *)
Example cross_date_same_time :
  App.handleMarkAttendance Host.Date_getTime
    [Sample.event "1" "S101" "2024-03-01" "10:00:00" PRESENT]
    (Sample.event "2" "S101" "2024-03-02" "10:00:00" PRESENT)
    [Sample.event "1" "S101" "2024-03-01" "10:00:00" PRESENT]
  = [Sample.event "2" "S101" "2024-03-02" "10:00:00" PRESENT;
     Sample.event "1" "S101" "2024-03-01" "10:00:00" PRESENT].
Proof. reflexivity. Qed.

(** The end-to-end scenario: a second detection 10 seconds later, by a
    handler that sees the first, is dropped. *)
Example second_scan_deduplicated :
  App.handleMarkAttendance Host.Date_getTime
    [Sample.event "1" "S101" "2024-03-01" "10:00:00" PRESENT]
    (Sample.event "2" "S101" "2024-03-01" "10:00:10" PRESENT)
    [Sample.event "1" "S101" "2024-03-01" "10:00:00" PRESENT]
  = [Sample.event "1" "S101" "2024-03-01" "10:00:00" PRESENT].
Proof. reflexivity. Qed.

(** C1.  The ledger does not always reject a candidate in the window of
    a stored event.  In the race of [Sessions.race] two analyses are in
    flight, both started by handlers of renders that saw the ledger
    empty; they settle at 10:00:08 and 10:00:09 for the same student and
    date, and both records are stored: the second handler searches the
    empty list it closes over and prepends to the state, which holds the
    first record.  A handler that closes over the first record rejects
    the second.  The two times of day are read as 36008000 and 36009000
    milliseconds, one second apart. *)
Theorem stale_handler_stores_in_window_record :
  LiveScanner.records
    (LiveScanner.run Host.Date_getTime [Sample.S101] (LiveScanner.mount [])
       Sessions.raceSettled)
  = [Sessions.markedAt09; Sessions.markedAt08] /\
  App.handleMarkAttendance Host.Date_getTime [] Sessions.markedAt09
    [Sessions.markedAt08]
  = [Sessions.markedAt09; Sessions.markedAt08] /\
  App.handleMarkAttendance Host.Date_getTime [Sessions.markedAt08] Sessions.markedAt09
    [Sessions.markedAt08]
  = [Sessions.markedAt08] /\
  AttendanceRecord.studentId Sessions.markedAt09
    = AttendanceRecord.studentId Sessions.markedAt08 /\
  AttendanceRecord.date Sessions.markedAt09 = AttendanceRecord.date Sessions.markedAt08 /\
  Host.Date_getTime ("1970/01/01 " +:+ AttendanceRecord.timestamp Sessions.markedAt08)
    = Some 36008000 /\
  Host.Date_getTime ("1970/01/01 " +:+ AttendanceRecord.timestamp Sessions.markedAt09)
    = Some 36009000.
Proof. repeat split; vm_compute; reflexivity. Qed.

(** ** The verdict interpreter *)

Section InterpreterFacts.

Variable students : list Student.t.
Variable clock : LiveScanner.Clock.

Local Abbreviation interpret := (LiveScanner.processResult students clock).

Lemma truthy_Some (m : string) : JS.truthy (Some m) = true <-> m <> "".
Proof.
  simpl. rewrite negb_true_iff. split.
  - intros H ->. discriminate.
  - intros H. apply not_true_is_false. now rewrite String.eqb_eq.
Qed.

Lemma find_student_None (m : string) :
  List.find (fun s => JS.strict_eq (Student.id s) (Some m)) students = None <->
  ~ Spec.resolves students (Some m).
Proof.
  split.
  - intros Hf (s & Hin & Heq). injection Heq as ->.
    apply list_elem_of_In in Hin.
    pose proof (List.find_none _ _ Hf s Hin) as Hn. simpl in Hn.
    now rewrite String.eqb_refl in Hn.
  - intros Hn. destruct (List.find _ students) as [s|] eqn:E; [|reflexivity].
    apply List.find_some in E as [Hin Heq]. simpl in Heq.
    apply String.eqb_eq in Heq. exfalso. apply Hn.
    exists s. split; [now apply list_elem_of_In | now rewrite Heq].
Qed.

Lemma find_student_Some (m : string) (s : Student.t) :
  List.find (fun s => JS.strict_eq (Student.id s) (Some m)) students = Some s ->
  s ∈ students /\ Student.id s = m.
Proof.
  intros E. apply List.find_some in E as [Hin Heq].
  split; [now apply list_elem_of_In | now apply String.eqb_eq].
Qed.

(** A falsy match id, null or the empty string, marks nothing and logs
    the description. *)
Lemma interpret_falsy (result : ScanResult.t) :
  JS.truthy (ScanResult.matchId result) = false ->
  interpret result =
  LiveScanner.mkInterp None (Some ("ℹ️ " +:+ ScanResult.description result)).
Proof. intros H. unfold LiveScanner.processResult. now rewrite H. Qed.

(** A truthy match id that no reference student carries marks nothing
    and logs nothing. *)
Lemma interpret_unknown (result : ScanResult.t) :
  JS.truthy (ScanResult.matchId result) = true ->
  ~ Spec.resolves students (ScanResult.matchId result) ->
  interpret result = LiveScanner.mkInterp None None.
Proof.
  intros Ht Hn. unfold LiveScanner.processResult. rewrite Ht.
  destruct (ScanResult.matchId result) as [m|]; [|discriminate].
  apply find_student_None in Hn. now rewrite Hn.
Qed.

(** The table of the interpreter in full: a match id that is null,
    empty or carried by no reference student gives no event; a non-empty
    match id carried by a reference student gives exactly one event for
    that student with the verdict's confidence and emotion, which is
    PRESENT with the description as notes when the person is real, and
    PROXY_ATTEMPT with notes "Spoofing Detected: " followed by the
    description when not. *)
Lemma interpret_table (result : ScanResult.t) :
  (ScanResult.matchId result = None \/ ScanResult.matchId result = Some ""
   \/ ~ Spec.resolves students (ScanResult.matchId result) ->
   LiveScanner.marked (interpret result) = None) /\
  (forall m, ScanResult.matchId result = Some m -> m <> "" ->
   Spec.resolves students (Some m) ->
   exists s r,
     LiveScanner.marked (interpret result) = Some r /\
     s ∈ students /\ Student.id s = m /\
     AttendanceRecord.studentId r = m /\
     AttendanceRecord.studentName r = Student.name s /\
     AttendanceRecord.confidence r = ScanResult.confidence result /\
     AttendanceRecord.emotion r = Some (ScanResult.emotion result) /\
     (ScanResult.isRealPerson result = true ->
      AttendanceRecord.status r = PRESENT /\
      AttendanceRecord.notes r = Some (ScanResult.description result)) /\
     (ScanResult.isRealPerson result = false ->
      AttendanceRecord.status r = PROXY_ATTEMPT /\
      AttendanceRecord.notes r =
        Some ("Spoofing Detected: " +:+ ScanResult.description result))).
Proof.
  split.
  - intros H.
    destruct (JS.truthy (ScanResult.matchId result)) eqn:Ht.
    + destruct H as [H | [H | H]].
      * rewrite H in Ht. discriminate.
      * rewrite H in Ht. discriminate.
      * now rewrite interpret_unknown.
    + now rewrite interpret_falsy.
  - intros m Hm Hne Hres.
    unfold LiveScanner.processResult. rewrite Hm.
    rewrite (proj2 (truthy_Some m) Hne).
    destruct (List.find _ students) as [s|] eqn:E.
    + apply find_student_Some in E as [Hin Hid].
      exists s.
      destruct (ScanResult.isRealPerson result); eexists; simpl;
        (split; [reflexivity|]); repeat split; auto; discriminate.
    + apply find_student_None in E. contradiction.
Qed.

End InterpreterFacts.

(** [Date.now().toString()] is never the empty string. *)
Lemma Number_toString_nonempty (z : Z) : JSText.Number_toString z <> "".
Proof.
  unfold JSText.Number_toString, NilZero.string_of_int.
  destruct (Z.to_int z) as [d|d]; [|discriminate].
  unfold NilZero.string_of_uint. destruct d; discriminate.
Qed.

(** Every student id the registry gives out is non-empty: a new student
    gets [Date.now().toString()], an edited one keeps its id, and no
    other operation writes an id. *)
Lemma registry_step_ids (currentUser : User.t) (st : StudentRegistry.State)
    (e : StudentRegistry.Event) :
  Forall (fun s => Student.id s <> "") (StudentRegistry.students st) ->
  Forall (fun s => Student.id s <> "")
    (StudentRegistry.students (StudentRegistry.step currentUser st e)).
Proof.
  intros H.
  assert (Hh : Forall (fun s => Student.id s <> "")
                 (StudentRegistry.students (StudentRegistry.handle currentUser st e)));
    [|unfold StudentRegistry.step; now destruct (bool_decide _)].
  destruct e; simpl; try exact H.
  - now destruct (_ !! i).
  - unfold StudentRegistry.handleSubmit.
    destruct (_ || _); [exact H|].
    destruct (JS.truthy (StudentRegistry.editingId _)) eqn:Ht; simpl.
    + unfold AppRegistry.handleEditStudent. apply Forall_map.
      eapply Forall_impl; [exact H|]. intros s Hs. simpl.
      destruct (String.eqb _ _); [|exact Hs]. simpl.
      destruct (StudentRegistry.editingId _) as [id|]; [|discriminate].
      simpl. now apply truthy_Some.
    + unfold AppRegistry.handleAddStudent. apply Forall_app. split; [exact H|].
      constructor; [|constructor]. simpl. apply Number_toString_nonempty.
  - destruct (_ !! i); [|exact H]. simpl.
    unfold AppRegistry.handleDeleteStudent.
    apply Forall_forall. intros s Hs. apply list_elem_of_In in Hs.
    apply List.filter_In in Hs as [Hs _]. apply list_elem_of_In in Hs.
    now apply (proj1 (Forall_forall _ _) H).
Qed.

Lemma registry_run_ids (currentUser : User.t) (es : list StudentRegistry.Event) :
  Forall (fun s => Student.id s <> "")
    (StudentRegistry.students
       (StudentRegistry.run currentUser (StudentRegistry.initial currentUser) es)).
Proof.
  unfold StudentRegistry.run.
  assert (H0 : Forall (fun s => Student.id s <> "")
                 (StudentRegistry.students (StudentRegistry.initial currentUser)))
    by constructor.
  revert H0. generalize (StudentRegistry.initial currentUser).
  induction es as [|e es IH]; intros st H; simpl; [exact H|].
  apply IH. now apply registry_step_ids.
Qed.

(** C2.  The verdict table holds over every reference set whose student
    ids are non-empty, as all ids given out by the registry are: a match
    id that is null or resolves to no reference student gives no event;
    a resolving match id with a real person gives one PRESENT event with
    the verdict's confidence, emotion and description as notes; a
    resolving match id without a real person gives one PROXY_ATTEMPT
    event whose notes are "Spoofing Detected: " followed by the
    description. *)
Theorem verdict_table_on_registered_ids (students : list Student.t) :
  Forall (fun s => Student.id s <> "") students ->
  Spec.verdictTable students.
Proof.
  intros Hids clock result.
  destruct (interpret_table students clock result) as [Hnone Hsome].
  assert (Hgot : Spec.resolves students (ScanResult.matchId result) ->
    exists s r,
      LiveScanner.marked (LiveScanner.processResult students clock result) = Some r /\
      s ∈ students /\
      AttendanceRecord.confidence r = ScanResult.confidence result /\
      AttendanceRecord.emotion r = Some (ScanResult.emotion result) /\
      (ScanResult.isRealPerson result = true ->
       AttendanceRecord.status r = PRESENT /\
       AttendanceRecord.notes r = Some (ScanResult.description result)) /\
      (ScanResult.isRealPerson result = false ->
       AttendanceRecord.status r = PROXY_ATTEMPT /\
       AttendanceRecord.notes r =
         Some ("Spoofing Detected: " +:+ ScanResult.description result))).
  { intros Hres. pose proof Hres as (s & Hin & Hm).
    assert (Hne : Student.id s <> "")
      by exact (proj1 (Forall_forall _ _) Hids s Hin).
    rewrite Hm in Hres.
    destruct (Hsome _ Hm Hne Hres)
      as (s' & r & Hr & Hin' & _ & _ & _ & Hc & He & Hreal & Hfake).
    exists s', r. auto 10. }
  split; [|split].
  - intros Hn. apply Hnone. auto.
  - intros Hres Hreal.
    destruct (Hgot Hres) as (s & r & Hr & _ & Hc & He & Hp & _).
    exists r. destruct (Hp Hreal). auto.
  - intros Hres Hfake.
    destruct (Hgot Hres) as (s & r & Hr & _ & _ & _ & _ & Hp).
    exists r. destruct (Hp Hfake). auto.
Qed.

(** The table over the reference set that holds S101. *)
Lemma verdict_table_of_S101 : Spec.verdictTable [Sample.S101].
Proof.
  apply (verdict_table_on_registered_ids [Sample.S101]).
  constructor; [discriminate | constructor].
Defined.

(** C7.  On a match id that no reference student carries the scan marks
    nothing and logs nothing, whereas on a null match id it logs the
    description. *)
Theorem unknown_matchId_not_logged :
  LiveScanner.processResult [Sample.S101] Sample.clock
    (Sample.verdict (Some "S999") true)
  = LiveScanner.mkInterp None None /\
  LiveScanner.processResult [Sample.S101] Sample.clock (Sample.verdict None true)
  = LiveScanner.mkInterp None (Some "ℹ️ clear match").
Proof. split; reflexivity. Qed.

(** The treatment of an unresolved match id differs from that of a null
    one. *)
Lemma unknown_unlike_null : ~ Spec.unknownLikeNull.
Proof.
  intros H.
  specialize (H [Sample.S101] Sample.clock (Sample.verdict (Some "S999") true)).
  assert (Hn : ~ Spec.resolves [Sample.S101] (Some "S999")).
  { intros (s & Hin & Heq). apply list_elem_of_singleton in Hin. subst s.
    discriminate Heq. }
  specialize (H Hn). discriminate H.
Qed.

(** ** The scanner state machine *)

Section ScannerFacts.

Variable Date_getTime : string -> option Z.
Variable students : list Student.t.

Local Abbreviation step := (LiveScanner.step Date_getTime students).
Local Abbreviation run := (LiveScanner.run Date_getTime students).

(** The guard of [handleScan] reads the [isProcessing] of its render. *)
Lemma handleScan_begin_busy (r : LiveScanner.Render) (ctx : bool) (frame : string)
    (w : LiveScanner.World) :
  LiveScanner.r_isProcessing r = true ->
  LiveScanner.handleScan_begin students r ctx frame w = w.
Proof.
  intros H. unfold LiveScanner.handleScan_begin. rewrite H.
  now rewrite !orb_true_r.
Qed.

Lemma commit_intervalIdle (w : LiveScanner.World) :
  Inv2.intervalIdle w -> Inv2.intervalIdle (LiveScanner.commit w).
Proof.
  intros H r. unfold LiveScanner.commit. simpl.
  destruct (_ && _ && Bool.eqb _ _) eqn:Hsame.
  - intros Hr. destruct (H r Hr) as [H1 H2]. split; [exact H1|].
    apply andb_true_iff in Hsame as [_ Hp]. apply Bool.eqb_prop in Hp.
    congruence.
  - destruct (_ && _ && negb _) eqn:Hon; [|discriminate].
    intros [= <-]. simpl.
    apply andb_true_iff in Hon as [_ Hp]. apply negb_true_iff in Hp. auto.
Qed.

Lemma begin_intervalIdle (r : LiveScanner.Render) (ctx : bool) (frame : string)
    (w : LiveScanner.World) :
  Inv2.intervalIdle w ->
  Inv2.intervalIdle (LiveScanner.handleScan_begin students r ctx frame w).
Proof.
  intros H. unfold LiveScanner.handleScan_begin.
  destruct (_ || _); [exact H|]. now destruct ctx.
Qed.

Lemma step_intervalIdle (w : LiveScanner.World) (e : LiveScanner.Event) :
  Inv2.intervalIdle w -> Inv2.intervalIdle (step w e).
Proof.
  intros H.
  destruct e as [granted| | |ctx frame|ctx frame|generate clock|]; simpl.
  - now destruct (LiveScanner.r_isActive _).
  - destruct (LiveScanner.r_isActive _); [|exact H].
    now apply commit_intervalIdle.
  - destruct (LiveScanner.r_isActive _); [|exact H].
    now apply commit_intervalIdle.
  - unfold LiveScanner.scanNow. destruct (_ && _); [|exact H].
    now apply commit_intervalIdle, begin_intervalIdle.
  - unfold LiveScanner.intervalTick.
    destruct (LiveScanner.interval w); [|exact H].
    now apply begin_intervalIdle.
  - unfold LiveScanner.handleScan_resume.
    destruct (LiveScanner.pending _) as [|call rest]; [exact H|].
    now destruct (GeminiService.analyzeFrame _ _ _).
  - now apply commit_intervalIdle.
Qed.

Lemma run_intervalIdle (es : list LiveScanner.Event) (w : LiveScanner.World) :
  Inv2.intervalIdle w -> Inv2.intervalIdle (run w es).
Proof.
  revert w. unfold LiveScanner.run.
  induction es as [|e es IH]; intros w Hw; simpl; [exact Hw|].
  apply IH. now apply step_intervalIdle.
Qed.

(** Once the screen shows the scanner processing, neither the button nor
    the interval starts a scan: the button is disabled and the interval
    has been cleared. *)
Lemma scan_on_busy_screen_is_noop (records : list AttendanceRecord.t)
    (es : list LiveScanner.Event) (ctx : bool) (frame : string) :
  LiveScanner.r_isProcessing
    (LiveScanner.shown (run (LiveScanner.mount records) es)) = true ->
  step (run (LiveScanner.mount records) es) (LiveScanner.ScanNow ctx frame)
    = run (LiveScanner.mount records) es /\
  step (run (LiveScanner.mount records) es) (LiveScanner.Tick ctx frame)
    = run (LiveScanner.mount records) es.
Proof.
  assert (Hi : Inv2.intervalIdle (run (LiveScanner.mount records) es)).
  { apply run_intervalIdle. intros r. discriminate. }
  set (w := run _ es) in *. clearbody w. intros Hs. simpl. split.
  - unfold LiveScanner.scanNow. rewrite Hs. now rewrite andb_false_r.
  - unfold LiveScanner.intervalTick.
    destruct (LiveScanner.interval w) as [r|] eqn:Hr; [|reflexivity].
    destruct (Hi r Hr) as [_ H2]. congruence.
Qed.

End ScannerFacts.

(** C3.  The single-flight guard can be passed while a scan is in
    flight.  With auto mode on, the interval fires and its [handleScan]
    starts an analysis: the scanner is processing with one call in
    flight.  The screen still shows the render in which [isProcessing]
    was false, so Scan Now is enabled, and its [handleScan] tests that
    stale [isProcessing]: a press before the re-render starts a second
    analysis, and two calls are in flight.  When the re-render comes
    first, the press does nothing. *)
Theorem second_scan_starts_before_rerender :
  LiveScanner.isProcessing
    (LiveScanner.scanner
       (LiveScanner.run Host.Date_getTime [Sample.S101] (LiveScanner.mount [])
          Sessions.tickFired)) = true /\
  LiveScanner.pending
    (LiveScanner.scanner
       (LiveScanner.run Host.Date_getTime [Sample.S101] (LiveScanner.mount [])
          Sessions.tickFired))
  = [LiveScanner.mkCall "data:image/jpeg;base64,AAAA" [Sample.S101] []] /\
  LiveScanner.run Host.Date_getTime [Sample.S101] (LiveScanner.mount []) Sessions.race
  = LiveScanner.step Host.Date_getTime [Sample.S101]
      (LiveScanner.run Host.Date_getTime [Sample.S101] (LiveScanner.mount [])
         Sessions.tickFired)
      (LiveScanner.ScanNow true "data:image/jpeg;base64,BBBB") /\
  LiveScanner.pending
    (LiveScanner.scanner
       (LiveScanner.run Host.Date_getTime [Sample.S101] (LiveScanner.mount [])
          Sessions.race))
  = [LiveScanner.mkCall "data:image/jpeg;base64,AAAA" [Sample.S101] [];
     LiveScanner.mkCall "data:image/jpeg;base64,BBBB" [Sample.S101] []] /\
  LiveScanner.pending
    (LiveScanner.scanner
       (LiveScanner.run Host.Date_getTime [Sample.S101] (LiveScanner.mount [])
          Sessions.noRace))
  = [LiveScanner.mkCall "data:image/jpeg;base64,AAAA" [Sample.S101] []].
Proof. repeat split. Qed.

(** The end-to-end scenario through the scanner: the analyzer matches
    S101 and the ledger gains one PRESENT event. *)
Example scan_marks_present :
  LiveScanner.records
    (LiveScanner.step Host.Date_getTime [Sample.S101] Sample.scanning
       (LiveScanner.Settled
          (fun _ => GeminiService.Returned (Sample.verdict (Some "S101") true))
          Sample.clock))
  = [AttendanceRecord.mk "1709287200000" "S101" "Asha" "10:00:00" "2024-03-01"
       PRESENT (92 # 100) (Some "Focused") (Some "clear match")].
Proof. reflexivity. Qed.
(** ** The visibility filter *)

Section VisibilityFacts.

Variable students : list Student.t.
Variable records : list AttendanceRecord.t.

Lemma filter_bool_decide {A} (f : A -> bool) (P : A -> Prop)
    `{forall x, Decision (P x)} (l : list A) :
  (forall x, f x = true <-> P x) -> List.filter f l = filter P l.
Proof.
  intros Hf. induction l as [|a l IH]; [reflexivity|].
  simpl. rewrite filter_cons, IH.
  destruct (decide (P a)) as [Hp|Hp], (f a) eqn:E; try reflexivity.
  - apply Hf in Hp. congruence.
  - apply Hf in E. contradiction.
Qed.

Lemma existsb_eqb_elem_of (x : string) (l : list string) :
  existsb (String.eqb x) l = true <-> x ∈ l.
Proof.
  rewrite existsb_exists. split.
  - intros (y & Hin & Heq). apply String.eqb_eq in Heq. subst y.
    now apply list_elem_of_In.
  - intros Hin. exists x. split; [now apply list_elem_of_In | apply String.eqb_refl].
Qed.

Lemma admin_sees_all (u : User.t) :
  User.role u = admin ->
  App.filteredStudents (Some u) students = students /\
  App.filteredRecords (Some u) students records = records.
Proof.
  intros Hr. unfold App.filteredStudents, App.filteredRecords.
  now rewrite Hr.
Qed.

(** C4, amended.  An administrator gets the students and the events
    unchanged.  A teacher whose assigned class is a non-empty string gets
    exactly the students of that class, in registry order, and exactly
    the events whose student id is the id of one of them, the ids being
    taken from the unfiltered registry. *)
Theorem visibility_by_role (u : User.t) :
  (User.role u = admin ->
   App.filteredStudents (Some u) students = students /\
   App.filteredRecords (Some u) students records = records) /\
  (forall c, User.role u = teacher -> User.assignedClass u = Some c -> c <> "" ->
   App.filteredStudents (Some u) students
     = filter (fun s => Student.classSection s = c) students /\
   App.filteredRecords (Some u) students records
     = filter (fun r => AttendanceRecord.studentId r ∈
                          (Student.id <$> filter (fun s => Student.classSection s = c) students))
         records).
Proof.
  split; [apply admin_sees_all|].
  intros c Hr Hc Hne.
  unfold App.filteredStudents, App.filteredRecords.
  rewrite Hr, Hc, (proj2 (truthy_Some c) Hne). simpl.
  assert (Hs : List.filter (fun s => String.eqb (Student.classSection s) c) students
               = filter (fun s => Student.classSection s = c) students).
  { apply filter_bool_decide. intros s. apply String.eqb_eq. }
  rewrite Hs. split; [reflexivity|].
  apply filter_bool_decide. intros r. apply existsb_eqb_elem_of.
Qed.

(** C10.  A teacher whose assigned class is absent or empty gets the
    whole registry and the whole ledger, as an administrator does. *)
Theorem classless_teacher_sees_all (u : User.t) :
  User.role u = teacher ->
  User.assignedClass u = None \/ User.assignedClass u = Some "" ->
  App.filteredStudents (Some u) students = students /\
  App.filteredRecords (Some u) students records = records /\
  (forall a, User.role a = admin ->
     App.filteredStudents (Some u) students = App.filteredStudents (Some a) students /\
     App.filteredRecords (Some u) students records
       = App.filteredRecords (Some a) students records).
Proof.
  intros Hr Hc.
  assert (H : App.filteredStudents (Some u) students = students /\
              App.filteredRecords (Some u) students records = records).
  { unfold App.filteredStudents, App.filteredRecords.
    rewrite Hr. destruct Hc as [-> | ->]; now simpl. }
  destruct H as [Hs Hrec]. repeat split; auto.
  - rewrite Hs. symmetry. now apply admin_sees_all.
  - rewrite Hrec. symmetry. now apply admin_sees_all.
Qed.

End VisibilityFacts.

(** C4, as stated, fails: a teacher with no assigned class is shown a
    student of class 10-A. *)
Lemma classless_teacher_not_confined : ~ Spec.teacherSeesOwnClass.
Proof.
  intros H.
  destruct (H Sample.teacherNoClass [Sample.S202] eq_refl Sample.S202) as [Hin _].
  destruct Hin as [_ Heq]; [apply list_elem_of_here | discriminate Heq].
Qed.

(** The visibility scenario: classes 10-A and 10-B, a teacher of 10-A. *)
Lemma teacher_10A_view :
  App.filteredStudents (Some Sample.teacher10A) [Sample.S202; Sample.S303]
    = filter (fun s => Student.classSection s = "10-A") [Sample.S202; Sample.S303] /\
  App.filteredRecords (Some Sample.teacher10A) [Sample.S202; Sample.S303]
    [Sample.event "1" "S202" "2024-03-01" "10:00:00" PRESENT;
     Sample.event "2" "S303" "2024-03-01" "10:05:00" PRESENT]
    = filter (fun r => AttendanceRecord.studentId r ∈
                (Student.id <$> filter (fun s => Student.classSection s = "10-A")
                                  [Sample.S202; Sample.S303]))
        [Sample.event "1" "S202" "2024-03-01" "10:00:00" PRESENT;
         Sample.event "2" "S303" "2024-03-01" "10:05:00" PRESENT].
Proof.
  apply (proj2 (visibility_by_role [Sample.S202; Sample.S303] _ Sample.teacher10A)
           "10-A"); [reflexivity | reflexivity | discriminate].
Defined.

Example teacher_10A_students :
  App.filteredStudents (Some Sample.teacher10A) [Sample.S202; Sample.S303] = [Sample.S202].
Proof. reflexivity. Qed.

Lemma classless_teacher_sample :
  App.filteredStudents (Some Sample.teacherNoClass) [Sample.S202; Sample.S303]
    = [Sample.S202; Sample.S303] /\
  App.filteredRecords (Some Sample.teacherNoClass) [Sample.S202; Sample.S303]
    [Sample.lateEvent] = [Sample.lateEvent] /\
  (forall a, User.role a = admin ->
     App.filteredStudents (Some Sample.teacherNoClass) [Sample.S202; Sample.S303]
       = App.filteredStudents (Some a) [Sample.S202; Sample.S303] /\
     App.filteredRecords (Some Sample.teacherNoClass) [Sample.S202; Sample.S303]
       [Sample.lateEvent]
       = App.filteredRecords (Some a) [Sample.S202; Sample.S303] [Sample.lateEvent]).
Proof.
  apply (classless_teacher_sees_all [Sample.S202; Sample.S303] [Sample.lateEvent]
           Sample.teacherNoClass); [reflexivity | left; reflexivity].
Defined.

(** ** Monthly aggregation *)

Section ReportFacts.

Variable Date_getFullYear : string -> option Z.
Variable Date_getMonth : string -> option Z.
Variable Math_round_percent : Z -> Z -> Z.
Variable toLowerCase : string -> string.
Variable year month : option Z.
Variable records : list AttendanceRecord.t.

Local Abbreviation inMonth :=
  (Reports.inSelectedMonth Date_getFullYear Date_getMonth year month).
Local Abbreviation totalDays :=
  (Reports.totalDays Date_getFullYear Date_getMonth year month records).
Local Abbreviation studentStat :=
  (Reports.studentStat Date_getFullYear Date_getMonth Math_round_percent
     year month records).

Lemma totalDays_uniqueDays :
  totalDays = Reports.uniqueDays Date_getFullYear Date_getMonth year month records.
Proof.
  unfold Reports.totalDays.
  destruct (0 <? _)%Z eqn:E; [reflexivity|].
  apply Z.ltb_ge in E. unfold Reports.uniqueDays in *. lia.
Qed.

Lemma elem_of_month_dates (d : string) :
  d ∈ List.map AttendanceRecord.date
        (Reports.monthRecords Date_getFullYear Date_getMonth year month records) <->
  exists r, r ∈ records /\ inMonth r = true /\ AttendanceRecord.date r = d.
Proof.
  rewrite list_elem_of_In, in_map_iff. unfold Reports.monthRecords.
  split; intros (r & H1 & H2).
  - apply filter_In in H2 as [Hin Hm]. exists r.
    split; [now apply list_elem_of_In | auto].
  - destruct H2 as [Hm Hd]. exists r. split; [exact Hd|].
    apply filter_In. split; [now apply list_elem_of_In | exact Hm].
Qed.

(** The denominator counts the distinct dates of the month: it is the
    length of any duplicate-free enumeration of them. *)
Lemma totalDays_distinct (ds : list string) :
  NoDup ds ->
  (forall d, d ∈ ds <->
     exists r, r ∈ records /\ inMonth r = true /\ AttendanceRecord.date r = d) ->
  totalDays = Z.of_nat (length ds).
Proof.
  intros Hnd Hds. rewrite totalDays_uniqueDays. unfold Reports.uniqueDays.
  f_equal. rewrite <- (size_list_to_set (C := gset string) ds Hnd).
  f_equal. apply set_eq. intros d.
  now rewrite !elem_of_list_to_set, elem_of_month_dates, Hds.
Qed.

(** Such an enumeration always exists. *)
Lemma month_dates_enumerated :
  exists ds : list string,
    NoDup ds /\
    forall d, d ∈ ds <->
      exists r, r ∈ records /\ inMonth r = true /\ AttendanceRecord.date r = d.
Proof.
  exists (remove_dups (List.map AttendanceRecord.date
            (Reports.monthRecords Date_getFullYear Date_getMonth year month records))).
  split; [apply NoDup_remove_dups|].
  intros d. rewrite elem_of_remove_dups. apply elem_of_month_dates.
Qed.

Lemma filter_filter_bool {A} (f g : A -> bool) (l : list A) :
  List.filter f (List.filter g l) = List.filter (fun x => g x && f x) l.
Proof.
  induction l as [|a l IH]; [reflexivity|]. simpl.
  destruct (g a); simpl; [destruct (f a)|]; now rewrite IH.
Qed.

Lemma status_eqb_eq (a b : AttendanceStatus) :
  AttendanceStatus_eqb a b = true <-> a = b.
Proof. destruct a, b; simpl; split; congruence. Qed.

Lemma present_count (s : Student.t) :
  Reports.present (studentStat s) =
  Z.of_nat (length (filter
    (fun r => inMonth r = true /\
              AttendanceRecord.studentId r = Student.id s /\
              AttendanceRecord.status r = PRESENT) records)).
Proof.
  unfold Reports.studentStat, Reports.monthRecords. simpl.
  rewrite !filter_filter_bool. do 2 f_equal.
  apply filter_bool_decide. intros r.
  rewrite !andb_true_iff, String.eqb_eq, status_eqb_eq. tauto.
Qed.

Lemma absent_derived (s : Student.t) :
  Reports.absent (studentStat s) = Z.max 0 (totalDays - Reports.present (studentStat s)).
Proof.
  unfold Reports.studentStat. simpl.
  destruct (_ <? 0)%Z eqn:E; [apply Z.ltb_lt in E | apply Z.ltb_ge in E]; lia.
Qed.

End ReportFacts.

Lemma includes_empty (hay : string) : JS.includes hay "" = true.
Proof. destruct hay; reflexivity. Qed.

(** On a host that reads from a date the year and the month written in
    it, as a browser in UTC or east of it does, the monthly figures are
    the ones of the calendar: the scanned days are the distinct dates of
    the ledger written in the selected month, over all students; the
    present days are the student's PRESENT events written in the month;
    the absent days are [max 0 (scanned - present)]; and with an empty
    search the table has the row of every student, in order. *)
Section CalendarHost.

Variable Date_getFullYear : string -> option Z.
Variable Date_getMonth : string -> option Z.
Variable Math_round_percent : Z -> Z -> Z.
Variable toLowerCase : string -> string.
Variable year month : Z.
Variable records : list AttendanceRecord.t.

Hypothesis reads_written : forall r, r ∈ records ->
  Date_getFullYear (AttendanceRecord.date r) = Spec.writtenYear (AttendanceRecord.date r) /\
  Date_getMonth (AttendanceRecord.date r)
    = option_map (fun m => m - 1) (Spec.writtenMonth (AttendanceRecord.date r)).

Lemma inSelectedMonth_written (r : AttendanceRecord.t) :
  r ∈ records ->
  Reports.inSelectedMonth Date_getFullYear Date_getMonth (Some year) (Some month) r = true
  <-> Spec.fallsIn year month (AttendanceRecord.date r).
Proof.
  intros Hin. destruct (reads_written r Hin) as [Hy Hm].
  unfold Reports.inSelectedMonth, Spec.fallsIn. rewrite Hy, Hm.
  destruct (Spec.writtenYear _) as [y|], (Spec.writtenMonth _) as [m|]; simpl;
    rewrite ?andb_true_iff, ?Z.eqb_eq; try (split; [discriminate | intros [? ?]; discriminate]).
  - split; intros [H1 H2]; split; try congruence.
    + f_equal. lia.
    + injection H2 as H2. lia.
  - split; [intros [_ H]; discriminate | intros [_ H]; discriminate].
Qed.

Lemma monthly_aggregation_on_calendar_host (s : Student.t) :
  (forall ds : list string,
     NoDup ds ->
     (forall d, d ∈ ds <->
        exists r, r ∈ records /\ AttendanceRecord.date r = d /\
                  Spec.fallsIn year month d) ->
     Reports.totalDays Date_getFullYear Date_getMonth (Some year) (Some month) records
     = Z.of_nat (length ds)) /\
  Z.to_nat
    (Reports.present
       (Reports.studentStat Date_getFullYear Date_getMonth Math_round_percent
          (Some year) (Some month) records s))
  = length (filter
      (fun r => Spec.fallsIn year month (AttendanceRecord.date r) /\
                AttendanceRecord.studentId r = Student.id s /\
                AttendanceRecord.status r = PRESENT) records) /\
  Reports.absent
    (Reports.studentStat Date_getFullYear Date_getMonth Math_round_percent
       (Some year) (Some month) records s)
  = Z.max 0
      (Reports.totalDays Date_getFullYear Date_getMonth (Some year) (Some month) records
       - Reports.present
           (Reports.studentStat Date_getFullYear Date_getMonth Math_round_percent
              (Some year) (Some month) records s)) /\
  (forall students,
     toLowerCase "" = "" ->
     Reports.monthlyStats Date_getFullYear Date_getMonth Math_round_percent toLowerCase
       Reports.monthly (Some year) (Some month) "" records students
     = List.map
         (Reports.studentStat Date_getFullYear Date_getMonth Math_round_percent
            (Some year) (Some month) records) students).
Proof.
  split; [|split; [|split]].
  - intros ds Hnd Hds. apply totalDays_distinct; [exact Hnd|].
    intros d. rewrite Hds. split; intros (r & Hin & H).
    + destruct H as [<- Hf]. exists r. split; [exact Hin|].
      split; [now apply inSelectedMonth_written | reflexivity].
    + destruct H as [Hm <-]. exists r. split; [exact Hin|].
      split; [reflexivity | now apply inSelectedMonth_written].
  - rewrite present_count, Nat2Z.id.
    clear -reads_written. pose proof inSelectedMonth_written as Hw.
    clear reads_written.
    induction records as [|r l IH]; [reflexivity|].
    rewrite !filter_cons.
    assert (Hr : Reports.inSelectedMonth Date_getFullYear Date_getMonth
                   (Some year) (Some month) r = true
                 <-> Spec.fallsIn year month (AttendanceRecord.date r))
      by (apply Hw; apply list_elem_of_here).
    assert (Hl : length (filter
                (fun r => Reports.inSelectedMonth Date_getFullYear Date_getMonth
                            (Some year) (Some month) r = true /\
                          AttendanceRecord.studentId r = Student.id s /\
                          AttendanceRecord.status r = PRESENT) l)
              = length (filter
                (fun r => Spec.fallsIn year month (AttendanceRecord.date r) /\
                          AttendanceRecord.studentId r = Student.id s /\
                          AttendanceRecord.status r = PRESENT) l)).
    { apply IH. intros r' Hr'. apply Hw. now apply list_elem_of_further. }
    repeat case_decide; simpl; try (now rewrite Hl); tauto.
  - apply absent_derived.
  - intros students Hlow. simpl. rewrite Hlow.
    induction students as [|s' l IH]; simpl; [reflexivity|].
    rewrite includes_empty. simpl. now rewrite IH.
Qed.

End CalendarHost.

(** The aggregation scenario on a host in UTC: three scan dates in
    March, S101 present on two of them. *)
Example march_stats (round : Z -> Z -> Z) (lower : string -> string) :
  lower "" = "" ->
  Reports.monthlyStats (Host.Date_getFullYear Host.utc) (Host.Date_getMonth Host.utc)
    round lower Reports.monthly (Some 2024) (Some 3) ""
    Sample.marchLedger [Sample.S101]
  = [Reports.mkStat Sample.S101 2 1 (round 2 3)] /\
  Reports.totalDays (Host.Date_getFullYear Host.utc) (Host.Date_getMonth Host.utc)
    (Some 2024) (Some 3) Sample.marchLedger = 3.
Proof.
  intros Hl. split; [|vm_compute; reflexivity].
  unfold Reports.monthlyStats. rewrite Hl. simpl List.map.
  unfold List.filter. rewrite includes_empty.
  vm_compute. reflexivity.
Qed.

(** C6.  The monthly figures are not those of the calendar month on a
    host west of UTC.  The ledger holds one PRESENT detection of S101
    dated 2024-03-01, a date written in March 2024.  In New York the
    aggregation for March 2024 counts no scanned day and no present day
    for S101, and the aggregation for February 2024 counts one of each:
    the date is read as midnight UTC and its month is taken in local
    time, which is still the evening of 29 February.  On a host in UTC
    March has the one scanned day and the one present day. *)
Theorem first_of_month_counted_in_previous_month (round : Z -> Z -> Z) :
  Spec.fallsIn 2024 3 "2024-03-01" /\
  List.map AttendanceRecord.date ReportCases.firstOfMarch = ["2024-03-01"] /\
  Reports.totalDays (Host.Date_getFullYear Host.newYork)
    (Host.Date_getMonth Host.newYork) (Some 2024) (Some 3) ReportCases.firstOfMarch = 0 /\
  Reports.present
    (Reports.studentStat (Host.Date_getFullYear Host.newYork)
       (Host.Date_getMonth Host.newYork) round (Some 2024) (Some 3)
       ReportCases.firstOfMarch Sample.S101) = 0 /\
  Reports.totalDays (Host.Date_getFullYear Host.newYork)
    (Host.Date_getMonth Host.newYork) (Some 2024) (Some 2) ReportCases.firstOfMarch = 1 /\
  Reports.present
    (Reports.studentStat (Host.Date_getFullYear Host.newYork)
       (Host.Date_getMonth Host.newYork) round (Some 2024) (Some 2)
       ReportCases.firstOfMarch Sample.S101) = 1 /\
  Reports.totalDays (Host.Date_getFullYear Host.utc)
    (Host.Date_getMonth Host.utc) (Some 2024) (Some 3) ReportCases.firstOfMarch = 1 /\
  Reports.present
    (Reports.studentStat (Host.Date_getFullYear Host.utc)
       (Host.Date_getMonth Host.utc) round (Some 2024) (Some 3)
       ReportCases.firstOfMarch Sample.S101) = 1.
Proof. repeat split; vm_compute; reflexivity. Qed.

(** East of UTC the first of March is counted in March. *)
Example first_of_march_east_of_utc :
  Reports.totalDays (Host.Date_getFullYear Host.kolkata)
    (Host.Date_getMonth Host.kolkata) (Some 2024) (Some 3) ReportCases.firstOfMarch = 1.
Proof. vm_compute. reflexivity. Qed.

(** ** User management *)

Section AdminFacts.

Variable currentUser : User.t.

Local Abbreviation step := (AdminPanel.step currentUser).
Local Abbreviation run := (AdminPanel.run currentUser).

Lemma existsb_map_same {A} (p : A -> bool) (f : A -> A) (l : list A) :
  (forall x, p x = true -> p (f x) = true) ->
  existsb p l = true -> existsb p (List.map f l) = true.
Proof.
  intros Hf. rewrite !existsb_exists. intros (x & Hin & Hp).
  exists (f x). split; [now apply in_map | auto].
Qed.

Lemma existsb_filter_keep {A} (p k : A -> bool) (l : list A) :
  (forall x, p x = true -> k x = true) ->
  existsb p l = true -> existsb p (List.filter k l) = true.
Proof.
  intros Hk. rewrite !existsb_exists. intros (x & Hin & Hp).
  exists x. split; [apply filter_In; auto | exact Hp].
Qed.

Lemma add_keeps (p : User.t -> bool) (newUser : User.t) (us : list User.t) :
  existsb p us = true -> existsb p (App.handleAddUser newUser us) = true.
Proof.
  intros H. unfold App.handleAddUser. rewrite existsb_app, H. reflexivity.
Qed.

Lemma edit_keeps_bootstrap (updatedUser : User.t) (us : list User.t) :
  AdminPanel.hasBootstrap us = true ->
  AdminPanel.hasBootstrap (App.handleEditUser updatedUser us) = true.
Proof.
  apply existsb_map_same. intros u Hu.
  destruct (String.eqb (User.username u) (User.username updatedUser)) eqn:E; [|exact Hu].
  apply String.eqb_eq in E. now rewrite <- E.
Qed.

Lemma edit_keeps_admin (updatedUser : User.t) (us : list User.t) :
  String.eqb (User.username updatedUser) "prahald"
    && Role_eqb (User.role updatedUser) teacher = false ->
  AdminPanel.hasBootstrapAdmin us = true ->
  AdminPanel.hasBootstrapAdmin (App.handleEditUser updatedUser us) = true.
Proof.
  intros Hsafe. apply existsb_map_same. intros u Hu.
  destruct (String.eqb (User.username u) (User.username updatedUser)) eqn:E; [|exact Hu].
  apply String.eqb_eq in E. apply andb_true_iff in Hu as [Hn _].
  rewrite <- E, Hn in *. simpl in *.
  now destruct (User.role updatedUser).
Qed.

Lemma delete_keeps (p : User.t -> bool) (user : User.t) (us : list User.t) :
  AdminPanel.deleteShown currentUser user = true ->
  (forall u, p u = true -> String.eqb (User.username u) "prahald" = true) ->
  existsb p us = true ->
  existsb p (App.handleDeleteUser (User.username user) us) = true.
Proof.
  intros Hshown Hp. apply existsb_filter_keep. intros u Hu.
  apply Hp, String.eqb_eq in Hu.
  apply andb_true_iff in Hshown as [Hne _].
  rewrite Hu. apply negb_true_iff.
  rewrite String.eqb_sym. now apply negb_true_iff.
Qed.

Lemma step_keeps_bootstrap (st : AdminPanel.State) (e : AdminPanel.Event) :
  AdminPanel.hasBootstrap (AdminPanel.users st) = true ->
  AdminPanel.hasBootstrap (AdminPanel.users (step st e)) = true.
Proof.
  intros H. unfold AdminPanel.step.
  destruct (negb _); [exact H|].
  destruct e as [row| | | | | | | |row]; simpl; try exact H.
  - now destruct (AdminPanel.users st !! row).
  - now destruct (AdminPanel.editingUser _).
  - now destruct (AdminPanel.editingUser _).
  - now destruct (AdminPanel.role _).
  - unfold AdminPanel.handleUserSubmit. simpl.
    destruct (_ || _ || _); [exact H|].
    destruct (_ && negb _); [exact H|].
    destruct (AdminPanel.editingUser _); simpl.
    + now apply edit_keeps_bootstrap.
    + destruct (existsb _ _); [exact H | now apply add_keeps].
  - destruct (AdminPanel.users st !! row) as [user|]; [|exact H].
    destruct (AdminPanel.deleteShown _ _) eqn:E; [|exact H].
    simpl. apply delete_keeps; auto.
Qed.

Lemma step_keeps_admin (st : AdminPanel.State) (e : AdminPanel.Event) :
  AdminPanel.hasBootstrapAdmin (AdminPanel.users st) = true ->
  AdminPanel.demotesBootstrap st e = false ->
  AdminPanel.hasBootstrapAdmin (AdminPanel.users (step st e)) = true.
Proof.
  intros H Hsafe. unfold AdminPanel.step.
  destruct (negb _); [exact H|].
  destruct e as [row| | | | | | | |row]; simpl; try exact H.
  - now destruct (AdminPanel.users st !! row).
  - now destruct (AdminPanel.editingUser _).
  - now destruct (AdminPanel.editingUser _).
  - now destruct (AdminPanel.role _).
  - unfold AdminPanel.handleUserSubmit. simpl.
    destruct (_ || _ || _); [exact H|].
    destruct (_ && negb _); [exact H|].
    unfold AdminPanel.demotesBootstrap in Hsafe.
    destruct (AdminPanel.editingUser _); simpl.
    + now apply edit_keeps_admin.
    + destruct (existsb _ _); [exact H | now apply add_keeps].
  - destruct (AdminPanel.users st !! row) as [user|]; [|exact H].
    destruct (AdminPanel.deleteShown _ _) eqn:E; [|exact H].
    simpl. apply delete_keeps; auto.
    intros u Hu. now apply andb_true_iff in Hu as [Hn _].
Qed.

(** C8, amended.  After every sequence of operations of the panel (add,
    edit, delete) the user list still holds an account named "prahald";
    and every single operation, delete in particular, keeps an
    administrator of that name, except the submission of an edit that
    gives the account the role of teacher. *)
Theorem bootstrap_account_persists (st : AdminPanel.State)
    (es : list AdminPanel.Event) :
  (AdminPanel.hasBootstrap (AdminPanel.users st) = true ->
   AdminPanel.hasBootstrap (AdminPanel.users (run st es)) = true) /\
  (forall e,
     AdminPanel.hasBootstrapAdmin (AdminPanel.users st) = true ->
     AdminPanel.demotesBootstrap st e = false ->
     AdminPanel.hasBootstrapAdmin (AdminPanel.users (step st e)) = true) /\
  (forall row,
     AdminPanel.hasBootstrapAdmin (AdminPanel.users st) = true ->
     AdminPanel.hasBootstrapAdmin
       (AdminPanel.users (step st (AdminPanel.DeleteClick row))) = true).
Proof.
  split; [|split].
  - revert st. unfold AdminPanel.run.
    induction es as [|e es IH]; intros st H; simpl; [exact H|].
    apply IH. now apply step_keeps_bootstrap.
  - intros e. apply step_keeps_admin.
  - intros row H. now apply step_keeps_admin.
Qed.

End AdminFacts.

(** C8, as stated, fails: editing the bootstrap account into a teacher
    leaves no administrator named "prahald". *)
Lemma bootstrap_admin_can_be_demoted : ~ Spec.bootstrapAdminForever.
Proof.
  intros H.
  specialize (H App.SUPER_ADMIN (AdminPanel.mk [App.SUPER_ADMIN] AdminPanel.emptyForm)
                Sample.demotion eq_refl).
  discriminate H.
Qed.

Example demotion_result :
  AdminPanel.users
    (AdminPanel.run App.SUPER_ADMIN
       (AdminPanel.mk [App.SUPER_ADMIN] AdminPanel.emptyForm) Sample.demotion)
  = [User.mk "prahald" "Prahlad@12" "Prahlad (Super Admin)" teacher (Some "10-A")].
Proof. reflexivity. Qed.

(** ** The reference pool sent to the analyzer *)

Section PoolFacts.

Variable generate : list GeminiService.Part -> GeminiService.Outcome.
Variable frame : string.

Lemma fold_pushStudent (pool : list Student.t) (parts : list GeminiService.Part) :
  fold_left GeminiService.pushStudent pool parts = parts ++ flat_map studentParts pool.
Proof.
  revert parts. induction pool as [|s pool IH]; intros parts; simpl.
  - now rewrite app_nil_r.
  - rewrite IH. unfold GeminiService.pushStudent.
    now rewrite <- !app_assoc.
Qed.

Lemma activeStudents_take (students : list Student.t) :
  GeminiService.activeStudents students = take 5 students.
Proof. reflexivity. Qed.

Lemma buildParts_request (students : list Student.t) :
  GeminiService.buildParts frame students
  = requestFor frame (GeminiService.activeStudents students).
Proof.
  unfold GeminiService.buildParts, requestFor.
  rewrite fold_pushStudent. simpl. now rewrite <- ?app_assoc.
Qed.

Lemma analyzeFrame_request (students : list Student.t) :
  students <> [] ->
  GeminiService.analyzeFrame generate frame students
  = generate (requestFor frame (GeminiService.activeStudents students)).
Proof.
  intros Hne. unfold GeminiService.analyzeFrame.
  destruct students; [contradiction|]. simpl.
  now rewrite <- buildParts_request.
Qed.

(** C9.  A pool of more than 5 students is cut to its first 5, in
    registration order, and the request carries the reference parts of
    those 5 only; a pool of at most 5 is forwarded whole. *)
Theorem reference_pool_capped (students : list Student.t) :
  ((5 < length students)%nat ->
   GeminiService.activeStudents students = take 5 students /\
   length (GeminiService.activeStudents students) = 5%nat /\
   (forall i : nat, (i < 5)%nat ->
      GeminiService.activeStudents students !! i = students !! i) /\
   GeminiService.analyzeFrame generate frame students
     = generate (requestFor frame (take 5 students))) /\
  ((length students <= 5)%nat ->
   GeminiService.activeStudents students = students /\
   (students <> [] ->
    GeminiService.analyzeFrame generate frame students
      = generate (requestFor frame students))).
Proof.
  split; intros Hlen.
  - repeat split.
    + rewrite activeStudents_take, length_take. lia.
    + intros i Hi. rewrite activeStudents_take. now apply lookup_take_lt.
    + rewrite analyzeFrame_request; [reflexivity|].
      intros ->. simpl in Hlen. lia.
  - assert (H : GeminiService.activeStudents students = students)
      by (rewrite activeStudents_take; now apply take_ge).
    split; [exact H|].
    intros Hne. now rewrite analyzeFrame_request, H.
Qed.

End PoolFacts.

Example six_students_capped :
  GeminiService.activeStudents Sample.six = take 5 Sample.six /\
  length (GeminiService.buildParts "data:,FFFF" Sample.six) = 14%nat.
Proof. split; reflexivity. Qed.

(** A teacher whose assigned class is the empty string is not confined
    either. *)
Example empty_class_teacher_view :
  App.filteredStudents (Some Sample.teacherEmptyClass) [Sample.S202; Sample.S303]
    = [Sample.S202; Sample.S303] /\
  App.filteredStudents (Some Sample.teacher7C) [Sample.S202; Sample.S303] = [].
Proof. split; reflexivity. Qed.

(** * Further properties of the code *)

(** ** The ledger over sequences of candidates *)

Section LedgerSequences.

Variable Date_getTime : string -> option Z.

Local Abbreviation mark := (App.handleMarkAttendance Date_getTime).
Local Abbreviation accepted := (App.accepted Date_getTime).
Local Abbreviation inWindow := (Spec.inWindow Date_getTime).
Local Abbreviation wellSpaced := (Inv.wellSpaced Date_getTime).

(** The handler of a render that shows the current ledger: the list it
    searches is the state it prepends to. *)
Local Abbreviation fresh := (fun l c => App.handleMarkAttendance Date_getTime l c l).

(** A sequence of calls, each by a handler with a closure of its own. *)
Local Abbreviation calls :=
  (fun l (cs : list (list AttendanceRecord.t * AttendanceRecord.t)) =>
     fold_left (fun prev sc => App.handleMarkAttendance Date_getTime (fst sc) (snd sc) prev)
       cs l).

Lemma inWindow_sym (a b : AttendanceRecord.t) : inWindow a b -> inWindow b a.
Proof.
  intros (Hs & Hd & t1 & t2 & H1 & H2 & Ht).
  repeat split; try congruence.
  exists t2, t1. repeat split; auto. lia.
Qed.

Lemma inWindow_refl (c : AttendanceRecord.t) :
  App.timeOfDay Date_getTime (AttendanceRecord.timestamp c) <> None -> inWindow c c.
Proof.
  unfold App.timeOfDay. intros H.
  destruct (Date_getTime _) as [t|] eqn:E; [|contradiction].
  repeat split. exists t, t. repeat split; auto. lia.
Qed.

Lemma accepted_true_iff (records : list AttendanceRecord.t) candidate :
  accepted records candidate = true <->
  forall r, r ∈ records -> ~ inWindow candidate r.
Proof.
  pose proof (accepted_false_iff Date_getTime records candidate) as H.
  destruct (accepted records candidate); split; intros H1.
  - intros r Hin Hw. assert (true = false) by (apply H; eauto). discriminate.
  - reflexivity.
  - discriminate.
  - destruct H as [H _]. destruct (H eq_refl) as (r & Hin & Hw).
    exfalso. eapply H1; eauto.
Qed.

(** A handler whose closure holds every record of the state keeps the
    state well spaced. *)
Lemma mark_wellSpaced (seen prev : list AttendanceRecord.t) candidate :
  (forall r, r ∈ prev -> r ∈ seen) ->
  wellSpaced prev -> wellSpaced (mark seen candidate prev).
Proof.
  intros Hsub Hl. rewrite append_cases.
  destruct (accepted seen candidate) eqn:E; [|exact Hl].
  split; [|exact Hl].
  intros e He. apply (proj1 (accepted_true_iff seen candidate) E). auto.
Qed.

Lemma wellSpaced_pairs (l : list AttendanceRecord.t) :
  wellSpaced l ->
  forall (i j : nat) ri rj,
    i <> j -> l !! i = Some ri -> l !! j = Some rj -> ~ inWindow ri rj.
Proof.
  induction l as [|r l IH]; intros Hl i j ri rj Hij Hi Hj.
  - rewrite lookup_nil in Hi. discriminate.
  - destruct Hl as [Hr Hl].
    destruct i as [|i], j as [|j]; simpl in Hi, Hj.
    + now contradict Hij.
    + injection Hi as <-. apply Hr. eapply list_elem_of_lookup_2; eauto.
    + injection Hj as <-. intros Hw. apply inWindow_sym in Hw. revert Hw.
      apply Hr. eapply list_elem_of_lookup_2; eauto.
    + apply (IH Hl i j); auto.
Qed.

(** X1.  A ledger with no two events in each other's window stays so
    under every handler whose closure holds all the records of the
    ledger, and hence under any sequence of candidates each handled by
    the handler of the render that shows the current ledger: any two of
    its events then differ in student, in date, or by at least 60
    seconds of time of day (or one of the times does not parse). *)
Theorem ledger_stays_well_spaced (l : list AttendanceRecord.t)
    (candidates : list AttendanceRecord.t) :
  wellSpaced l ->
  (forall seen c, (forall r, r ∈ l -> r ∈ seen) -> wellSpaced (mark seen c l)) /\
  wellSpaced (fold_left fresh candidates l) /\
  forall (i j : nat) ri rj,
    i <> j ->
    fold_left fresh candidates l !! i = Some ri ->
    fold_left fresh candidates l !! j = Some rj ->
    ~ inWindow ri rj.
Proof.
  intros Hl.
  assert (H : wellSpaced (fold_left fresh candidates l)).
  { revert l Hl. induction candidates as [|c cs IH]; intros l Hl; simpl; [exact Hl|].
    apply IH. now apply mark_wellSpaced. }
  split; [|split; [exact H | now apply wellSpaced_pairs]].
  intros seen c Hsub. now apply mark_wellSpaced.
Qed.

(** X2.  A candidate whose time of day parses is not stored by a handler
    whose closure already holds it; so offering it twice, each time to
    the handler of the render that shows the current ledger, stores it at
    most once.  One and the same handler called twice decides twice on
    the same closure: when it accepts, the candidate is stored twice. *)
Theorem append_same_twice (seen l : list AttendanceRecord.t) (c : AttendanceRecord.t) :
  App.timeOfDay Date_getTime (AttendanceRecord.timestamp c) <> None ->
  (c ∈ seen -> mark seen c l = l) /\
  fresh (fresh l c) c = fresh l c /\
  (accepted seen c = true -> mark seen c (mark seen c l) = c :: c :: l).
Proof.
  intros Ht.
  assert (Hseen : forall s p, c ∈ s -> mark s c p = p).
  { intros s p Hin. rewrite append_cases.
    rewrite (proj2 (accepted_false_iff Date_getTime s c)); [reflexivity|].
    exists c. split; [exact Hin | now apply inWindow_refl]. }
  split; [apply Hseen|]. split.
  - rewrite (append_cases Date_getTime l c l).
    destruct (accepted l c) eqn:E.
    + apply Hseen, list_elem_of_here.
    + rewrite append_cases. now rewrite E.
  - intros E. rewrite !append_cases. now rewrite E.
Qed.

(** X3.  A candidate whose time of day does not parse is never
    deduplicated: every handler stores it, whatever its closure and
    whatever the ledger hold, even a copy of itself. *)
Theorem unparsed_time_always_stored (l : list AttendanceRecord.t)
    (c : AttendanceRecord.t) :
  App.timeOfDay Date_getTime (AttendanceRecord.timestamp c) = None ->
  (forall seen, mark seen c l = c :: l) /\
  (forall seen1 seen2, mark seen2 c (mark seen1 c l) = c :: c :: l) /\
  fresh l c = c :: l /\ fresh (fresh l c) c = c :: c :: l.
Proof.
  intros Ht.
  assert (H : forall seen l', mark seen c l' = c :: l').
  { intros seen l'. rewrite append_cases.
    rewrite (proj2 (accepted_true_iff seen c)); [reflexivity|].
    intros r _ (_ & _ & t1 & t2 & _ & H2 & _).
    unfold App.timeOfDay in Ht. congruence. }
  repeat split; intros; now rewrite !H.
Qed.

Lemma mark_suffix (seen l : list AttendanceRecord.t) c : l `suffix_of` mark seen c l.
Proof.
  rewrite append_cases. destruct (accepted seen c); [|reflexivity].
  now apply suffix_cons_r.
Qed.

Lemma mark_length (seen l : list AttendanceRecord.t) c :
  (length (mark seen c l) <= S (length l))%nat.
Proof. rewrite append_cases. destruct (accepted seen c); simpl; lia. Qed.

(** X4.  The ledger is append-only: after any sequence of candidates the
    old ledger is still there, unchanged, as the tail of the new one, and
    the ledger has grown by at most one event per candidate.  This holds
    when each candidate goes to the handler of the render that shows the
    current ledger, and when each goes to a handler with any closure. *)
Theorem ledger_append_only (l candidates : list AttendanceRecord.t) :
  l `suffix_of` fold_left fresh candidates l /\
  (length (fold_left fresh candidates l) <= length l + length candidates)%nat /\
  forall cs : list (list AttendanceRecord.t * AttendanceRecord.t),
    l `suffix_of` calls l cs /\
    (length (calls l cs) <= length l + length cs)%nat.
Proof.
  split; [|split].
  - revert l. induction candidates as [|c cs IH]; intros l; simpl; [reflexivity|].
    etransitivity; [apply (mark_suffix l l c) | apply IH].
  - revert l. induction candidates as [|c cs IH]; intros l; simpl; [lia|].
    pose proof (IH (fresh l c)). pose proof (mark_length l l c). lia.
  - intros cs. revert l. induction cs as [|[seen c] cs IH]; intros l; simpl.
    + split; [reflexivity | lia].
    + destruct (IH (mark seen c l)) as [Hs Hl]. split.
      * etransitivity; [apply mark_suffix | exact Hs].
      * pose proof (mark_length seen l c). lia.
Qed.

End LedgerSequences.
(** ** The visibility filter, continued *)

Section VisibilityMore.

Variable currentUser : option User.t.
Variable students : list Student.t.
Variable records : list AttendanceRecord.t.

Lemma filter_bool_sublist {A} (f : A -> bool) (l : list A) :
  List.filter f l `sublist_of` l.
Proof.
  induction l as [|a l IH]; simpl; [constructor|].
  destruct (f a); [now apply sublist_skip | now apply sublist_cons].
Qed.

Lemma filter_bool_idem {A} (f : A -> bool) (l : list A) :
  List.filter f (List.filter f l) = List.filter f l.
Proof.
  induction l as [|a l IH]; simpl; [reflexivity|].
  destruct (f a) eqn:E; simpl; [rewrite E|]; now rewrite IH.
Qed.

(** X5.  Whoever the actor is, the filter only removes: the students and
    the events it returns are sub-sequences of the registry and of the
    ledger, in their original order, and nothing is returned when nobody
    is logged in. *)
Theorem filter_only_removes :
  App.filteredStudents currentUser students `sublist_of` students /\
  App.filteredRecords currentUser students records `sublist_of` records /\
  (currentUser = None ->
   App.filteredStudents currentUser students = [] /\
   App.filteredRecords currentUser students records = []).
Proof.
  unfold App.filteredStudents, App.filteredRecords.
  destruct currentUser as [u|].
  - destruct (_ && _); repeat split; try discriminate;
      first [apply filter_bool_sublist | reflexivity].
  - repeat split; apply sublist_nil_l.
Qed.

(** X6.  Filtering is idempotent, and the events a user sees are the
    same whether the student ids are taken from the whole registry or
    from the already filtered students handed to the views. *)
Theorem filter_stable :
  App.filteredStudents currentUser (App.filteredStudents currentUser students)
    = App.filteredStudents currentUser students /\
  App.filteredRecords currentUser (App.filteredStudents currentUser students) records
    = App.filteredRecords currentUser students records /\
  App.filteredRecords currentUser students
      (App.filteredRecords currentUser students records)
    = App.filteredRecords currentUser students records.
Proof.
  unfold App.filteredStudents, App.filteredRecords.
  destruct currentUser as [u|]; [|repeat split].
  destruct (_ && _) eqn:E; [|repeat split].
  rewrite !filter_bool_idem. repeat split.
Qed.

End VisibilityMore.

Lemma teacher_event_student
    (u : User.t) (students : list Student.t) (records : list AttendanceRecord.t)
    (r : AttendanceRecord.t) :
  User.role u = teacher ->
  JS.truthy (User.assignedClass u) = true ->
  r ∈ App.filteredRecords (Some u) students records ->
  exists s, s ∈ App.filteredStudents (Some u) students /\
            Student.id s = AttendanceRecord.studentId r /\
            Some (Student.classSection s) = User.assignedClass u.
Proof.
  intros Hr Hc Hin. unfold App.filteredStudents, App.filteredRecords in *.
  rewrite Hr, Hc in *. simpl in *.
  apply list_elem_of_In, filter_In in Hin as [_ Hex].
  apply existsb_exists in Hex as (i & Hi & Heq).
  apply String.eqb_eq in Heq. subst i.
  apply in_map_iff in Hi as (s & Hid & Hs).
  exists s. split; [now apply list_elem_of_In|]. split; [exact Hid|].
  apply filter_In in Hs as [_ Hs].
  destruct (User.assignedClass u) as [c|]; [|discriminate].
  simpl in Hs. apply String.eqb_eq in Hs. now rewrite Hs.
Qed.

(** X7.  A teacher with a class never sees an event of a student outside
    the visible students: every visible event carries the id of a visible
    student, who is of the teacher's class. *)
Theorem teacher_events_have_visible_student
    (u : User.t) (students : list Student.t) (records : list AttendanceRecord.t)
    (r : AttendanceRecord.t) :
  User.role u = teacher ->
  JS.truthy (User.assignedClass u) = true ->
  r ∈ App.filteredRecords (Some u) students records ->
  exists s, s ∈ App.filteredStudents (Some u) students /\
            Student.id s = AttendanceRecord.studentId r /\
            Some (Student.classSection s) = User.assignedClass u.
Proof. apply teacher_event_student. Qed.

(** ** The scanner over arbitrary histories *)

Section ScannerHistories.

Variable Date_getTime : string -> option Z.
Variable students : list Student.t.

Local Abbreviation step := (LiveScanner.step Date_getTime students).
Local Abbreviation run := (LiveScanner.run Date_getTime students).
Local Abbreviation resume := (LiveScanner.handleScan_resume Date_getTime).

Lemma addLog_length (msg : string) (st : LiveScanner.State) :
  (length (LiveScanner.logs (LiveScanner.addLog msg st)) <= 10)%nat.
Proof. simpl. rewrite length_take. lia. Qed.

Lemma begin_logBounded (r : LiveScanner.Render) (ctx : bool) (frame : string)
    (w : LiveScanner.World) :
  Inv2.logBounded w ->
  Inv2.logBounded (LiveScanner.handleScan_begin students r ctx frame w).
Proof.
  intros H. unfold LiveScanner.handleScan_begin.
  destruct (_ || _); [exact H|].
  destruct ctx; unfold Inv2.logBounded; simpl; rewrite length_take; lia.
Qed.

Lemma step_logBounded (w : LiveScanner.World) (e : LiveScanner.Event) :
  Inv2.logBounded w -> Inv2.logBounded (step w e).
Proof.
  intros H. destruct e as [granted| | |ctx frame|ctx frame|generate clock|]; simpl.
  - destruct (LiveScanner.r_isActive _); [exact H|].
    unfold LiveScanner.startCamera.
    destruct granted; [destruct (LiveScanner.videoRef _); [|exact H]|];
      unfold Inv2.logBounded; simpl; rewrite length_take; lia.
  - destruct (LiveScanner.r_isActive _); [|exact H].
    unfold LiveScanner.stopCamera. destruct (_ && _); [|exact H].
    unfold Inv2.logBounded; simpl; rewrite length_take; lia.
  - now destruct (LiveScanner.r_isActive _).
  - unfold LiveScanner.scanNow. destruct (_ && _); [|exact H].
    now apply (begin_logBounded (LiveScanner.shown w) ctx frame) in H.
  - unfold LiveScanner.intervalTick.
    destruct (LiveScanner.interval w); [|exact H].
    now apply begin_logBounded.
  - unfold LiveScanner.handleScan_resume.
    destruct (LiveScanner.pending _) as [|call rest]; [exact H|].
    destruct (GeminiService.analyzeFrame _ _ _) as [|result].
    + unfold Inv2.logBounded; simpl; rewrite length_take; lia.
    + destruct (LiveScanner.logged _); unfold Inv2.logBounded; simpl;
        [rewrite length_take; lia | exact H].
  - exact H.
Qed.

(** X8.  The scanner's log never grows beyond ten lines, whatever
    happens. *)
Theorem log_stays_bounded (w : LiveScanner.World) (es : list LiveScanner.Event) :
  Inv2.logBounded w -> Inv2.logBounded (run w es).
Proof.
  revert w. unfold LiveScanner.run.
  induction es as [|e es IH]; intros w H; simpl; [exact H|].
  apply IH. now apply step_logBounded.
Qed.

(** X9.  When the analyzer throws, the settlement of a scan stores
    nothing, records the failure at the head of the log and ends the
    scan. *)
Theorem failed_analysis_stores_nothing
    (generate : list GeminiService.Part -> GeminiService.Outcome)
    (clock : LiveScanner.Clock) (w : LiveScanner.World)
    (frame : string) (studs : list Student.t) (seen : list AttendanceRecord.t)
    (rest : list LiveScanner.Call) :
  (forall parts, generate parts = GeminiService.Failed) ->
  LiveScanner.pending (LiveScanner.scanner w)
    = LiveScanner.mkCall frame studs seen :: rest ->
  studs <> [] ->
  LiveScanner.records (resume generate clock w) = LiveScanner.records w /\
  LiveScanner.isProcessing (LiveScanner.scanner (resume generate clock w)) = false /\
  LiveScanner.logs (LiveScanner.scanner (resume generate clock w)) !! 0%nat
    = Some "❌ Scan failed: AI Error" /\
  LiveScanner.lastScanResult (LiveScanner.scanner (resume generate clock w))
    = LiveScanner.lastScanResult (LiveScanner.scanner w).
Proof.
  intros Hfail Hp Hne. unfold LiveScanner.handleScan_resume. rewrite Hp.
  unfold GeminiService.analyzeFrame.
  destruct studs as [|s studs]; [contradiction|]. simpl.
  rewrite Hfail. simpl. repeat split.
Qed.

Lemma begin_records (r : LiveScanner.Render) (ctx : bool) (frame : string)
    (w : LiveScanner.World) :
  LiveScanner.records (LiveScanner.handleScan_begin students r ctx frame w)
  = LiveScanner.records w.
Proof.
  unfold LiveScanner.handleScan_begin.
  destruct (_ || _); [reflexivity|]. now destruct ctx.
Qed.

Lemma step_records (w : LiveScanner.World) (e : LiveScanner.Event) :
  LiveScanner.records (step w e) = LiveScanner.records w \/
  exists r, LiveScanner.records (step w e) = r :: LiveScanner.records w.
Proof.
  destruct e as [granted| | |ctx frame|ctx frame|generate clock|]; simpl.
  - left. now destruct (LiveScanner.r_isActive _).
  - left. now destruct (LiveScanner.r_isActive _).
  - left. now destruct (LiveScanner.r_isActive _).
  - left. unfold LiveScanner.scanNow. destruct (_ && _); [|reflexivity].
    simpl. apply begin_records.
  - left. unfold LiveScanner.intervalTick.
    destruct (LiveScanner.interval w); [apply begin_records | reflexivity].
  - unfold LiveScanner.handleScan_resume.
    destruct (LiveScanner.pending _) as [|call rest]; [now left|].
    destruct (GeminiService.analyzeFrame _ _ _) as [|result]; [now left|]. simpl.
    destruct (LiveScanner.marked _) as [record|]; [|now left].
    rewrite append_cases. destruct (App.accepted _ _ _); [right; eauto | now left].
  - now left.
Qed.

(** X10.  No event of the scanner removes or rewrites a stored event:
    after any history the old ledger is the tail of the new one, and one
    event adds at most one record at the head. *)
Theorem scanner_never_rewrites_ledger (w : LiveScanner.World)
    (es : list LiveScanner.Event) :
  LiveScanner.records w `suffix_of` LiveScanner.records (run w es) /\
  (forall e, LiveScanner.records (step w e) = LiveScanner.records w \/
             exists r, LiveScanner.records (step w e) = r :: LiveScanner.records w).
Proof.
  split; [|apply step_records].
  revert w. unfold LiveScanner.run.
  induction es as [|e es IH]; intros w; simpl; [reflexivity|].
  etransitivity; [|apply IH].
  destruct (step_records w e) as [-> | [r ->]]; [reflexivity|].
  now apply suffix_cons_r.
Qed.

(** X11.  Stopping the camera does not cancel a scan in flight: the call
    stays pending and its settlement stores exactly what it would have
    stored without the stop. *)
Theorem stop_keeps_scan_in_flight
    (generate : list GeminiService.Part -> GeminiService.Outcome)
    (clock : LiveScanner.Clock) (w : LiveScanner.World) :
  LiveScanner.pending (LiveScanner.scanner (step w LiveScanner.StopCamera))
    = LiveScanner.pending (LiveScanner.scanner w) /\
  LiveScanner.records
    (step (step w LiveScanner.StopCamera) (LiveScanner.Settled generate clock))
  = LiveScanner.records (step w (LiveScanner.Settled generate clock)).
Proof.
  destruct w as [recs st sh iv]. simpl.
  destruct (LiveScanner.r_isActive _); [|split; reflexivity].
  unfold LiveScanner.stopCamera, LiveScanner.handleScan_resume.
  destruct (_ && _); simpl; (split; [reflexivity|]);
    (destruct (LiveScanner.pending _) as [|call rest]; [reflexivity|]);
    (destruct (GeminiService.analyzeFrame _ _ _) as [|result]; [reflexivity|]);
    simpl; now destruct (LiveScanner.marked _).
Qed.

(** X12.  Once a running camera is stopped with the Stop button, the
    scanner is inactive with auto mode off, and neither the interval nor
    the buttons start a scan until the camera is started again. *)
Theorem stopped_camera_starts_no_scan (w : LiveScanner.World)
    (ctx : bool) (frame : string) :
  LiveScanner.r_isActive (LiveScanner.shown w) = true ->
  LiveScanner.videoRef (LiveScanner.scanner w) = true ->
  LiveScanner.srcObject (LiveScanner.scanner w) = true ->
  LiveScanner.isActive (LiveScanner.scanner (step w LiveScanner.StopCamera)) = false /\
  LiveScanner.autoMode (LiveScanner.scanner (step w LiveScanner.StopCamera)) = false /\
  step (step w LiveScanner.StopCamera) (LiveScanner.Tick ctx frame)
    = step w LiveScanner.StopCamera /\
  step (step w LiveScanner.StopCamera) (LiveScanner.ScanNow ctx frame)
    = step w LiveScanner.StopCamera /\
  step (step w LiveScanner.StopCamera) LiveScanner.ToggleAuto
    = step w LiveScanner.StopCamera.
Proof.
  intros Ha Hv Hs. simpl. rewrite Ha.
  unfold LiveScanner.stopCamera. rewrite Hv, Hs.
  unfold LiveScanner.intervalTick, LiveScanner.scanNow, LiveScanner.commit.
  simpl. rewrite Ha. simpl. repeat split.
Qed.

(** X13.  A scan started while no student is visible never reaches the
    model: whatever the model would answer, its settlement stores
    nothing, shows the "No students registered" result and logs the
    request to register students. *)
Theorem empty_pool_scan_is_local
    (generate : list GeminiService.Part -> GeminiService.Outcome)
    (clock : LiveScanner.Clock) (w : LiveScanner.World)
    (frame : string) (seen : list AttendanceRecord.t)
    (rest : list LiveScanner.Call) :
  LiveScanner.pending (LiveScanner.scanner w)
    = LiveScanner.mkCall frame [] seen :: rest ->
  LiveScanner.records (resume generate clock w) = LiveScanner.records w /\
  LiveScanner.lastScanResult (LiveScanner.scanner (resume generate clock w))
    = Some (ScanResult.mk None 0 false "No students registered"
              "Please register students first.") /\
  LiveScanner.logs (LiveScanner.scanner (resume generate clock w)) !! 0%nat
    = Some "ℹ️ Please register students first." /\
  LiveScanner.isProcessing (LiveScanner.scanner (resume generate clock w)) = false.
Proof.
  intros Hp. unfold LiveScanner.handleScan_resume. rewrite Hp. simpl.
  repeat split.
Qed.

End ScannerHistories.

Section ScannerProvenance.

Variable Date_getTime : string -> option Z.
Variable students : list Student.t.

Local Abbreviation step := (LiveScanner.step Date_getTime students).
Local Abbreviation run := (LiveScanner.run Date_getTime students).

Lemma processResult_fromPool (studs : list Student.t) (clock : LiveScanner.Clock)
    (result : ScanResult.t) (r : AttendanceRecord.t) :
  LiveScanner.marked (LiveScanner.processResult studs clock result) = Some r ->
  Inv.fromPool studs r.
Proof.
  unfold LiveScanner.processResult.
  destruct (JS.truthy _); [|discriminate].
  destruct (List.find _ studs) as [s|] eqn:E; [|discriminate].
  apply List.find_some in E as [Hin _]. apply list_elem_of_In in Hin.
  destruct (ScanResult.isRealPerson result); simpl; intros [= <-];
    (split; [discriminate | exists s; auto]).
Qed.

Lemma begin_pendingOn (r : LiveScanner.Render) (ctx : bool) (frame : string)
    (w : LiveScanner.World) :
  Inv.pendingOn students w ->
  Inv.pendingOn students (LiveScanner.handleScan_begin students r ctx frame w).
Proof.
  intros H. unfold LiveScanner.handleScan_begin.
  destruct (_ || _); [exact H|].
  destruct ctx; unfold Inv.pendingOn in *; simpl; [|exact H].
  intros call Hin. apply elem_of_app in Hin as [Hin | Hin]; [eauto|].
  apply list_elem_of_singleton in Hin. now subst call.
Qed.

Lemma step_provenance (w : LiveScanner.World) (e : LiveScanner.Event) :
  (forall r, r ∈ LiveScanner.records w -> Inv.fromPool students r) ->
  Inv.pendingOn students w ->
  (forall r, r ∈ LiveScanner.records (step w e) -> Inv.fromPool students r) /\
  Inv.pendingOn students (step w e).
Proof.
  intros Hrec Hpend.
  destruct e as [granted| | |ctx frame|ctx frame|generate clock|]; simpl.
  - destruct (LiveScanner.r_isActive _); [now split|]. split; [exact Hrec|].
    unfold LiveScanner.startCamera, Inv.pendingOn in *.
    destruct granted; [destruct (LiveScanner.videoRef _)|]; exact Hpend.
  - destruct (LiveScanner.r_isActive _); [|now split]. split; [exact Hrec|].
    unfold LiveScanner.stopCamera, Inv.pendingOn in *.
    destruct (_ && _); exact Hpend.
  - destruct (LiveScanner.r_isActive _); now split.
  - unfold LiveScanner.scanNow. destruct (_ && _); [|now split].
    split.
    + simpl. now rewrite begin_records.
    + now apply (begin_pendingOn (LiveScanner.shown w) ctx frame) in Hpend.
  - unfold LiveScanner.intervalTick.
    destruct (LiveScanner.interval w); [|now split].
    rewrite begin_records. split; [exact Hrec | now apply begin_pendingOn].
  - unfold LiveScanner.handleScan_resume.
    destruct (LiveScanner.pending (LiveScanner.scanner w))
      as [|[frame studs seen] rest] eqn:Hp; [now split|].
    assert (Hstuds : studs = students).
    { apply (Hpend (LiveScanner.mkCall frame studs seen)). rewrite Hp.
      apply list_elem_of_here. }
    assert (Hrest : forall call, call ∈ rest -> LiveScanner.studs call = students).
    { intros call Hin. apply Hpend. rewrite Hp. now apply list_elem_of_further. }
    subst studs. simpl.
    destruct (GeminiService.analyzeFrame _ _ _) as [|result]; simpl.
    + split; [exact Hrec | exact Hrest].
    + split.
      * destruct (LiveScanner.marked _) as [record|] eqn:Hm; [|exact Hrec].
        rewrite append_cases. destruct (App.accepted _ _ _); [|exact Hrec].
        intros r Hin. apply elem_of_cons in Hin as [-> | Hin]; [|auto].
        eapply processResult_fromPool; eauto.
      * destruct (LiveScanner.logged _); exact Hrest.
  - now split.
Qed.

(** X14.  The scanner only ever stores events of the students it was
    given: after any history every stored event is PRESENT or
    PROXY_ATTEMPT, never ABSENT, and carries the id and the name of one
    of those students. *)
Theorem ledger_events_come_from_pool (w : LiveScanner.World)
    (es : list LiveScanner.Event) :
  (forall r, r ∈ LiveScanner.records w -> Inv.fromPool students r) ->
  Inv.pendingOn students w ->
  forall r, r ∈ LiveScanner.records (run w es) -> Inv.fromPool students r.
Proof.
  revert w. unfold LiveScanner.run.
  induction es as [|e es IH]; intros w Hrec Hpend; simpl; [exact Hrec|].
  destruct (step_provenance w e Hrec Hpend) as [H1 H2]. now apply IH.
Qed.

Lemma begin_busyHasPending (r : LiveScanner.Render) (ctx : bool) (frame : string)
    (w : LiveScanner.World) :
  Inv2.busyHasPending w ->
  Inv2.busyHasPending (LiveScanner.handleScan_begin students r ctx frame w).
Proof.
  intros H. unfold LiveScanner.handleScan_begin.
  destruct (negb _ || negb _ || _); [exact H|].
  unfold Inv2.busyHasPending in *.
  destruct ctx; simpl; [|discriminate].
  intros _. now destruct (LiveScanner.pending _).
Qed.

Lemma step_busyHasPending (w : LiveScanner.World) (e : LiveScanner.Event) :
  Inv2.busyHasPending w -> Inv2.busyHasPending (step w e).
Proof.
  intros H. destruct e as [granted| | |ctx frame|ctx frame|generate clock|]; simpl.
  - destruct (LiveScanner.r_isActive _); [exact H|].
    unfold LiveScanner.startCamera, Inv2.busyHasPending in *.
    destruct granted; [destruct (LiveScanner.videoRef _)|]; exact H.
  - destruct (LiveScanner.r_isActive _); [|exact H].
    unfold LiveScanner.stopCamera, Inv2.busyHasPending in *.
    destruct (_ && _); exact H.
  - now destruct (LiveScanner.r_isActive _).
  - unfold LiveScanner.scanNow. destruct (_ && _); [|exact H].
    now apply (begin_busyHasPending (LiveScanner.shown w) ctx frame) in H.
  - unfold LiveScanner.intervalTick.
    destruct (LiveScanner.interval w); [|exact H].
    now apply begin_busyHasPending.
  - unfold LiveScanner.handleScan_resume.
    destruct (LiveScanner.pending (LiveScanner.scanner w)) as [|call rest];
      [exact H|].
    unfold Inv2.busyHasPending.
    destruct (GeminiService.analyzeFrame _ _ _) as [|result]; simpl; [discriminate|].
    destruct (LiveScanner.logged _); discriminate.
  - exact H.
Qed.

(** X15.  The scanner never sticks in the processing state: after any
    history from the mounted component, while it is processing a call to
    the analyzer is in flight, and the next settlement of the analyzer,
    whatever its outcome, leaves it not processing. *)
Theorem scanner_never_stuck (records : list AttendanceRecord.t)
    (es : list LiveScanner.Event)
    (generate : list GeminiService.Part -> GeminiService.Outcome)
    (clock : LiveScanner.Clock) :
  Inv2.busyHasPending (run (LiveScanner.mount records) es) /\
  LiveScanner.isProcessing
    (LiveScanner.scanner
       (step (run (LiveScanner.mount records) es)
          (LiveScanner.Settled generate clock))) = false.
Proof.
  assert (H : forall w, Inv2.busyHasPending w -> Inv2.busyHasPending (run w es)).
  { unfold LiveScanner.run. induction es as [|e es' IH]; intros w Hw; simpl; [exact Hw|].
    apply IH. now apply step_busyHasPending. }
  specialize (H (LiveScanner.mount records)).
  assert (H0 : Inv2.busyHasPending (LiveScanner.mount records)) by discriminate.
  specialize (H H0). split; [exact H|].
  set (w := run _ es) in *. clearbody w.
  simpl. unfold LiveScanner.handleScan_resume, Inv2.busyHasPending in *.
  destruct (LiveScanner.pending (LiveScanner.scanner w)) as [|call rest] eqn:Hp.
  - destruct (LiveScanner.isProcessing _); [|reflexivity].
    now destruct (H eq_refl).
  - now destruct (GeminiService.analyzeFrame _ _ _) as [|result].
Qed.

End ScannerProvenance.
(** ** The request sent to the model *)

Section RequestFacts.

Lemma str_app_nil_l (t : string) : "" +:+ t = t.
Proof. reflexivity. Qed.

Lemma str_app_cons (c : ascii) (s t : string) : String c s +:+ t = String c (s +:+ t).
Proof. reflexivity. Qed.

Lemma rev_app_append (cur x t : string) :
  String.rev_app cur x +:+ t = String.rev_app cur (x +:+ t).
Proof.
  revert x. induction cur as [|c cur IH]; intros x; simpl; [reflexivity|].
  now rewrite IH, str_app_cons.
Qed.

Lemma commaFree_rev_app (cur acc : string) :
  JSText.commaFree (String.rev_app cur acc)
  = JSText.commaFree cur && JSText.commaFree acc.
Proof.
  revert acc. induction cur as [|c cur IH]; intros acc; simpl; [reflexivity|].
  rewrite IH. simpl. destruct (Ascii.eqb c ","), (JSText.commaFree cur); reflexivity.
Qed.

Lemma split_commaFree (cur t : string) :
  JSText.commaFree t = true ->
  JS.split_comma_aux cur t = [String.rev cur +:+ t].
Proof.
  revert cur. induction t as [|c t IH]; intros cur Ht; simpl in *.
  - unfold String.rev. now rewrite rev_app_append.
  - apply andb_true_iff in Ht as [Hc Ht]. apply negb_true_iff in Hc.
    rewrite Hc, (IH _ Ht). unfold String.rev. simpl.
    now rewrite !rev_app_append.
Qed.

Lemma split_at_comma (cur p q : string) :
  JSText.commaFree p = true ->
  JS.split_comma_aux cur (p +:+ "," +:+ q)
  = (String.rev cur +:+ p) :: JS.split_comma_aux "" q.
Proof.
  revert cur. induction p as [|c p IH]; intros cur Hp.
  - rewrite str_app_nil_l, str_app_cons. simpl.
    unfold String.rev. now rewrite rev_app_append.
  - rewrite str_app_cons. simpl in *.
    apply andb_true_iff in Hp as [Hc Hp]. apply negb_true_iff in Hc.
    rewrite Hc, (IH _ Hp). unfold String.rev. simpl.
    now rewrite !rev_app_append.
Qed.

Lemma split_pieces_commaFree (cur s : string) :
  JSText.commaFree cur = true ->
  Forall (fun piece => JSText.commaFree piece = true) (JS.split_comma_aux cur s).
Proof.
  revert cur. induction s as [|c s IH]; intros cur Hcur; simpl.
  - constructor; [|constructor].
    unfold String.rev. now rewrite commaFree_rev_app, Hcur.
  - destruct (Ascii.eqb c ",") eqn:Hc.
    + constructor; [|now apply IH].
      unfold String.rev. now rewrite commaFree_rev_app, Hcur.
    + apply IH. simpl. now rewrite Hc.
Qed.

Lemma clean_commaFree (s : string) :
  JSText.commaFree s = true -> GeminiService.clean s = s.
Proof.
  intros H. unfold GeminiService.clean, JS.split_comma.
  now rewrite (split_commaFree "" s H).
Qed.

(** X16.  Cleaning a string twice is the same as cleaning it once; a
    string without comma is left as it is; and a data URL, made of a
    comma-free header, a comma and a non-empty comma-free payload, is
    cut down to its payload. *)
Theorem clean_extracts_payload (s : string) :
  GeminiService.clean (GeminiService.clean s) = GeminiService.clean s /\
  (JSText.commaFree s = true -> GeminiService.clean s = s) /\
  (forall header payload,
     s = header +:+ "," +:+ payload ->
     JSText.commaFree header = true -> JSText.commaFree payload = true ->
     payload <> "" ->
     GeminiService.clean s = payload).
Proof.
  split; [|split].
  - assert (H : GeminiService.clean s = s \/
                JSText.commaFree (GeminiService.clean s) = true).
    { unfold GeminiService.clean.
      destruct (JS.split_comma s !! 1%nat) as [piece|] eqn:E; [|now left].
      destruct (JS.truthy (Some piece)); [right | now left].
      pose proof (split_pieces_commaFree "" s eq_refl) as Hall.
      rewrite Forall_lookup in Hall. exact (Hall _ _ E). }
    destruct H as [H | H]; [now rewrite !H | now apply clean_commaFree].
  - apply clean_commaFree.
  - intros header payload -> Hh Hp Hne.
    unfold GeminiService.clean, JS.split_comma.
    rewrite (split_at_comma "" header payload Hh), (split_commaFree "" payload Hp).
    pose proof (proj2 (truthy_Some payload) Hne) as Ht.
    simpl in *. change (String.rev "" +:+ payload) with payload.
    now rewrite Ht.
Qed.

Lemma flat_map_studentParts_length (pool : list Student.t) :
  length (flat_map studentParts pool) = (2 * length pool)%nat.
Proof. induction pool as [|s pool IH]; simpl; [reflexivity | rewrite IH; lia]. Qed.

(** X17.  The request holds the four fixed parts and two parts for each
    of at most five students: never more than fourteen parts, however
    many students are registered. *)
Theorem request_size_bounded (frame : string) (students : list Student.t) :
  length (GeminiService.buildParts frame students)
    = (4 + 2 * Nat.min 5 (length students))%nat /\
  (length (GeminiService.buildParts frame students) <= 14)%nat.
Proof.
  rewrite buildParts_request. unfold requestFor.
  rewrite !length_app, flat_map_studentParts_length, activeStudents_take, length_take.
  change (length [_; _; _]) with 3%nat. change (length [_]) with 1%nat.
  lia.
Qed.

End RequestFacts.

(** ** The monthly table, continued *)

Section ReportRows.

Variable Date_getFullYear : string -> option Z.
Variable Date_getMonth : string -> option Z.
Variable Math_round_percent : Z -> Z -> Z.
Variable toLowerCase : string -> string.
Variable year month : option Z.
Variable records : list AttendanceRecord.t.

Local Abbreviation inMonth :=
  (Reports.inSelectedMonth Date_getFullYear Date_getMonth year month).
Local Abbreviation totalDays :=
  (Reports.totalDays Date_getFullYear Date_getMonth year month records).
Local Abbreviation studentStat :=
  (Reports.studentStat Date_getFullYear Date_getMonth Math_round_percent
     year month records).
Local Abbreviation monthlyStats :=
  (Reports.monthlyStats Date_getFullYear Date_getMonth Math_round_percent toLowerCase).

Lemma totalDays_nonneg : 0 <= totalDays.
Proof.
  unfold Reports.totalDays, Reports.uniqueDays.
  destruct (0 <? _)%Z; lia.
Qed.

(** X18.  In every row the present and absent counts are not negative,
    the absent count is at most the number of scanned days, and present
    plus absent is the larger of the present count and the scanned days:
    they add up to the scanned days unless the student has more PRESENT
    events than there are scanned days. *)
Theorem monthly_row_bounds (s : Student.t) :
  0 <= Reports.present (studentStat s) /\
  0 <= Reports.absent (studentStat s) <= totalDays /\
  Reports.present (studentStat s) + Reports.absent (studentStat s)
    = Z.max (Reports.present (studentStat s)) totalDays.
Proof.
  pose proof totalDays_nonneg as Ht.
  unfold Reports.studentStat. simpl.
  set (p := Z.of_nat _). assert (0 <= p) by (unfold p; lia).
  destruct (_ <? 0)%Z eqn:E; [apply Z.ltb_lt in E | apply Z.ltb_ge in E]; lia.
Qed.

(** X19.  The rows of the table follow the order of the students and no
    student has two rows; a search term that lower-cases to the empty
    string shows every student; and the daily report has no rows. *)
Theorem monthly_rows_follow_students (reportType : Reports.ReportType)
    (searchTerm : string) (students : list Student.t) :
  List.map Reports.student
    (monthlyStats reportType year month searchTerm records students)
    `sublist_of` students /\
  (toLowerCase searchTerm = "" ->
   List.map Reports.student
     (monthlyStats Reports.monthly year month searchTerm records students)
   = students) /\
  monthlyStats Reports.daily year month searchTerm records students = [].
Proof.
  split; [|split; [|reflexivity]].
  - destruct reportType; simpl; [apply sublist_nil_l|].
    induction students as [|s l IH]; simpl; [constructor|].
    destruct (JS.includes _ _); simpl; [now apply sublist_skip | now apply sublist_cons].
  - intros Hs. simpl. rewrite Hs.
    induction students as [|s l IH]; simpl; [reflexivity|].
    rewrite includes_empty. simpl. now rewrite IH.
Qed.

(** When no record of the ledger falls in the selected month,
    every student's row reads 0 present, 0 absent, 0 percent. *)
Lemma empty_month_rows_are_zero (s : Student.t) :
  (forall r, r ∈ records -> inMonth r = false) ->
  studentStat s = Reports.mkStat s 0 0 0.
Proof.
  intros H.
  assert (Hm : Reports.monthRecords Date_getFullYear Date_getMonth year month records = []).
  { unfold Reports.monthRecords.
    induction records as [|r l IH]; simpl; [reflexivity|].
    rewrite (H r) by apply list_elem_of_here.
    apply IH. intros r' Hr'. apply H. now apply list_elem_of_further. }
  unfold Reports.studentStat, Reports.totalDays, Reports.uniqueDays.
  rewrite Hm. reflexivity.
Qed.

End ReportRows.

(** A student detected twice on the only scanned day has two present
    days out of one, on a host in UTC. *)
Example present_can_exceed_scanned_days (round : Z -> Z -> Z) :
  Reports.studentStat (Host.Date_getFullYear Host.utc) (Host.Date_getMonth Host.utc)
    round (Some 2024) (Some 3) ReportCases.twiceADay Sample.S101
  = Reports.mkStat Sample.S101 2 0 (round 2 1).
Proof. vm_compute. reflexivity. Qed.

(** ** The CSV export *)

Section CsvFacts.

Variable Number_toString_real : Q -> string.

Lemma commas_app (a b : string) :
  commas (a +:+ b) = (commas a + commas b)%nat.
Proof.
  induction a as [|c a IH]; [reflexivity|].
  rewrite str_app_cons. simpl. rewrite IH. lia.
Qed.

Lemma commas_rev_app (cur acc : string) :
  commas (String.rev_app cur acc) = (commas cur + commas acc)%nat.
Proof.
  revert acc. induction cur as [|c cur IH]; intros acc; simpl; [reflexivity|].
  rewrite IH. simpl. lia.
Qed.

Lemma commaFree_commas (s : string) :
  JSText.commaFree s = true <-> commas s = 0%nat.
Proof.
  induction s as [|c s IH]; simpl; [tauto|].
  destruct (Ascii.eqb c ","); simpl; [split; [discriminate | lia]|exact IH].
Qed.

Lemma split_length (cur s : string) :
  length (JS.split_comma_aux cur s) = S (commas s).
Proof.
  revert cur. induction s as [|c s IH]; intros cur; simpl; [reflexivity|].
  destruct (Ascii.eqb c ","); simpl; now rewrite IH.
Qed.

Lemma commas_uint (d : Decimal.uint) : commas (NilEmpty.string_of_uint d) = 0%nat.
Proof. induction d; simpl; auto. Qed.

Lemma commas_Number (z : Z) : commas (JSText.Number_toString z) = 0%nat.
Proof.
  unfold JSText.Number_toString, NilZero.string_of_int, NilZero.string_of_uint.
  destruct (Z.to_int z) as [d|d]; destruct d; simpl; auto using commas_uint.
Qed.

Lemma commas_join (l : list string) :
  commas (JSText.join "," l)
  = (list_sum (List.map commas l) + (length l - 1))%nat.
Proof.
  induction l as [|x [|y l] IH]; [reflexivity | simpl; lia |].
  change (JSText.join "," (x :: y :: l)) with (x +:+ "," +:+ JSText.join "," (y :: l)).
  rewrite !commas_app, IH. simpl. lia.
Qed.

Lemma split_join (l : list string) :
  l <> [] -> Forall (fun f => JSText.commaFree f = true) l ->
  JS.split_comma (JSText.join "," l) = l.
Proof.
  intros Hne Hall. unfold JS.split_comma.
  induction l as [|x [|y l] IH]; [contradiction | |].
  - simpl. now rewrite split_commaFree by now inversion Hall.
  - change (JSText.join "," (x :: y :: l)) with (x +:+ "," +:+ JSText.join "," (y :: l)).
    inversion Hall as [|? ? Hx Hrest]; subst.
    rewrite split_at_comma by exact Hx.
    rewrite IH by (auto; discriminate). reflexivity.
Qed.

(** X20.  The export does no quoting in the monthly summary: the line of
    a row splits at commas into six columns plus one more for every
    comma in the student's name, roll number or class; when these three
    hold no comma, splitting the line gives back exactly the six
    fields. *)
Theorem monthly_line_columns (row : Reports.Stat) :
  length (JS.split_comma (JSText.join "," (Csv.monthlyFields row)))
    = (6 + commas (Student.name (Reports.student row))
         + commas (Student.rollNumber (Reports.student row))
         + commas (Student.classSection (Reports.student row)))%nat /\
  (JSText.commaFree (Student.name (Reports.student row)) = true ->
   JSText.commaFree (Student.rollNumber (Reports.student row)) = true ->
   JSText.commaFree (Student.classSection (Reports.student row)) = true ->
   JS.split_comma (JSText.join "," (Csv.monthlyFields row)) = Csv.monthlyFields row).
Proof.
  split.
  - unfold JS.split_comma. rewrite split_length, commas_join.
    unfold Csv.monthlyFields. simpl.
    rewrite commas_app, !commas_Number. simpl. lia.
  - intros Hn Hr Hc. apply split_join; [discriminate|].
    unfold Csv.monthlyFields. repeat constructor; auto;
      apply commaFree_commas; rewrite ?commas_app, ?commas_Number; reflexivity.
Qed.

End CsvFacts.

Example comma_in_name_shifts_columns :
  JS.split_comma
    (JSText.join ","
       (Csv.monthlyFields (Reports.mkStat ReportCases.commaName 2 1 67)))
  = ["Rao"; " Asha"; "1"; "7-C"; "2"; "1"; "67%"].
Proof. vm_compute. reflexivity. Qed.

(** ** User management, continued *)

Section AdminInvariants.

Variable currentUser : User.t.

Local Abbreviation step := (AdminPanel.step currentUser).
Local Abbreviation run := (AdminPanel.run currentUser).

Lemma edit_usernames (updatedUser : User.t) (us : list User.t) :
  List.map User.username (App.handleEditUser updatedUser us)
  = List.map User.username us.
Proof.
  unfold App.handleEditUser. induction us as [|u us IH]; simpl; [reflexivity|].
  rewrite IH. destruct (String.eqb _ _) eqn:E; [|reflexivity].
  apply String.eqb_eq in E. now rewrite E.
Qed.

Lemma delete_usernames_sublist (name : string) (us : list User.t) :
  List.map User.username (App.handleDeleteUser name us)
    `sublist_of` List.map User.username us.
Proof.
  unfold App.handleDeleteUser. induction us as [|u us IH]; simpl; [constructor|].
  destruct (negb _); simpl; [now apply sublist_skip | now apply sublist_cons].
Qed.

Lemma existsb_username_elem (name : string) (us : list User.t) :
  existsb (fun u => String.eqb (User.username u) name) us = true <->
  name ∈ List.map User.username us.
Proof.
  rewrite existsb_exists, list_elem_of_In, in_map_iff. split.
  - intros (u & Hin & Heq). apply String.eqb_eq in Heq. eauto.
  - intros (u & Heq & Hin). exists u. split; [exact Hin | now apply String.eqb_eq].
Qed.

(** The three ways a submission ends: with an error message and no
    change; as an edit, which replaces the accounts of the form's user
    name by the account built from the form; or as a creation, which
    appends that account, its name being free. *)
Lemma submit_cases (st : AdminPanel.State) :
  (AdminPanel.users (AdminPanel.handleUserSubmit st) = AdminPanel.users st /\
   AdminPanel.userError (AdminPanel.form (AdminPanel.handleUserSubmit st)) <> "") \/
  (AdminPanel.editingUser (AdminPanel.form st) <> None /\
   Inv.classed (AdminPanel.userData (AdminPanel.form st)) /\
   AdminPanel.form (AdminPanel.handleUserSubmit st) = AdminPanel.emptyForm /\
   AdminPanel.users (AdminPanel.handleUserSubmit st)
     = App.handleEditUser (AdminPanel.userData (AdminPanel.form st))
         (AdminPanel.users st)) \/
  (AdminPanel.editingUser (AdminPanel.form st) = None /\
   Inv.classed (AdminPanel.userData (AdminPanel.form st)) /\
   AdminPanel.form (AdminPanel.handleUserSubmit st) = AdminPanel.emptyForm /\
   (AdminPanel.username (AdminPanel.form st)
      ∉ List.map User.username (AdminPanel.users st)) /\
   AdminPanel.users (AdminPanel.handleUserSubmit st)
     = App.handleAddUser (AdminPanel.userData (AdminPanel.form st))
         (AdminPanel.users st)).
Proof.
  unfold AdminPanel.handleUserSubmit. simpl.
  destruct (_ || _ || _); [left; split; [reflexivity | discriminate]|].
  destruct (Role_eqb _ teacher && negb _) eqn:Hcls;
    [left; split; [reflexivity | discriminate]|].
  assert (Hclassed : Inv.classed (AdminPanel.userData (AdminPanel.form st))).
  { unfold Inv.classed, AdminPanel.userData. simpl.
    destruct (AdminPanel.role (AdminPanel.form st)); [reflexivity|].
    simpl in Hcls. now apply negb_false_iff in Hcls. }
  destruct (AdminPanel.editingUser (AdminPanel.form st)); simpl.
  - right; left. now repeat split.
  - destruct (existsb _ _) eqn:Hex; [left; split; [reflexivity | discriminate]|].
    right; right. repeat split; [exact Hclassed|].
    intros Hin. apply existsb_username_elem in Hin. congruence.
Qed.

(** A submission that goes through had the three text fields filled. *)
Lemma submit_fields_filled (st : AdminPanel.State) :
  AdminPanel.userError (AdminPanel.form (AdminPanel.handleUserSubmit st)) = "" ->
  AdminPanel.username (AdminPanel.form st) <> "" /\
  AdminPanel.password (AdminPanel.form st) <> "" /\
  AdminPanel.name (AdminPanel.form st) <> "".
Proof.
  unfold AdminPanel.handleUserSubmit. simpl.
  destruct (String.eqb (AdminPanel.username _) "") eqn:E1; [discriminate|].
  destruct (String.eqb (AdminPanel.password _) "") eqn:E2; [discriminate|].
  destruct (String.eqb (AdminPanel.name _) "") eqn:E3; [discriminate|].
  intros _. apply String.eqb_neq in E1, E2, E3. auto.
Qed.

(** How one event of the panel changes the user list. *)
Lemma step_users (st : AdminPanel.State) (e : AdminPanel.Event) :
  AdminPanel.users (step st e) = AdminPanel.users st \/
  (exists userData, Inv.classed userData /\
     AdminPanel.users (step st e) = App.handleEditUser userData (AdminPanel.users st)) \/
  (exists userData, Inv.classed userData /\
     (User.username userData ∉ List.map User.username (AdminPanel.users st)) /\
     AdminPanel.users (step st e) = App.handleAddUser userData (AdminPanel.users st)) \/
  (exists user, AdminPanel.deleteShown currentUser user = true /\
     AdminPanel.users (step st e)
       = App.handleDeleteUser (User.username user) (AdminPanel.users st)).
Proof.
  unfold AdminPanel.step. destruct (negb _); [now left|].
  destruct e as [row| | | | | | | |row]; simpl; try (now left).
  - left. now destruct (AdminPanel.users st !! row).
  - left. now destruct (AdminPanel.editingUser _).
  - left. now destruct (AdminPanel.editingUser _).
  - left. now destruct (AdminPanel.role _).
  - destruct (submit_cases st) as [[H _] | [(_ & Hd & _ & H) | (_ & Hd & _ & Hn & H)]].
    + now left.
    + right; left. eauto.
    + right; right; left. eauto.
  - destruct (AdminPanel.users st !! row) as [user|]; [|now left].
    destruct (AdminPanel.deleteShown _ _) eqn:E; [|now left].
    right; right; right. eauto.
Qed.

Lemma run_induction (P : list User.t -> Prop) :
  (forall st e, P (AdminPanel.users st) -> P (AdminPanel.users (step st e))) ->
  forall es st, P (AdminPanel.users st) -> P (AdminPanel.users (run st es)).
Proof.
  intros Hstep es. unfold AdminPanel.run.
  induction es as [|e es IH]; intros st H; simpl; [exact H|].
  apply IH. now apply Hstep.
Qed.

(** X21.  User names stay pairwise distinct over every sequence of panel
    operations: the panel never creates a second account with a name in
    use. *)
Theorem usernames_stay_unique (st : AdminPanel.State) (es : list AdminPanel.Event) :
  Inv.uniqueNames (AdminPanel.users st) ->
  Inv.uniqueNames (AdminPanel.users (run st es)).
Proof.
  apply run_induction. clear st es. intros st e H. unfold Inv.uniqueNames in *.
  destruct (step_users st e)
    as [-> | [(d & _ & ->) | [(d & _ & Hn & ->) | (user & _ & ->)]]].
  - exact H.
  - now rewrite edit_usernames.
  - unfold App.handleAddUser. rewrite map_app. apply NoDup_app.
    split; [exact H|]. split; [|apply NoDup_singleton].
    intros x Hx Hin. apply list_elem_of_singleton in Hin. now subst x.
  - eapply sublist_NoDup; [exact H | apply delete_usernames_sublist].
Qed.

(** X22.  An administrator cannot remove the own account: as long as an
    account carries the name of the current user, it still does after
    every sequence of panel operations. *)
Theorem own_account_persists (st : AdminPanel.State) (es : list AdminPanel.Event) :
  User.username currentUser ∈ List.map User.username (AdminPanel.users st) ->
  User.username currentUser ∈ List.map User.username (AdminPanel.users (run st es)).
Proof.
  apply (run_induction
           (fun us => User.username currentUser ∈ List.map User.username us)).
  clear st es. intros st e H.
  destruct (step_users st e)
    as [-> | [(d & _ & ->) | [(d & _ & Hn & ->) | (user & Hshown & ->)]]].
  - exact H.
  - now rewrite edit_usernames.
  - unfold App.handleAddUser. rewrite map_app. apply elem_of_app. now left.
  - apply list_elem_of_In, in_map_iff in H as (u & Heq & Hin).
    apply list_elem_of_In, in_map_iff. exists u. split; [exact Heq|].
    unfold App.handleDeleteUser. apply filter_In. split; [exact Hin|].
    apply andb_true_iff in Hshown as [_ Hself].
    rewrite Heq, String.eqb_sym. exact Hself.
Qed.

(** X23.  The panel keeps accounts well-formed: if every teacher has a
    non-empty class and no administrator has one, this is still so after
    every sequence of panel operations. *)
Theorem accounts_stay_classed (st : AdminPanel.State) (es : list AdminPanel.Event) :
  Forall Inv.classed (AdminPanel.users st) ->
  Forall Inv.classed (AdminPanel.users (run st es)).
Proof.
  apply run_induction. clear st es. intros st e H.
  destruct (step_users st e)
    as [-> | [(d & Hd & ->) | [(d & Hd & _ & ->) | (user & _ & ->)]]].
  - exact H.
  - unfold App.handleEditUser. rewrite Forall_forall in *.
    intros u Hu. apply list_elem_of_In, in_map_iff in Hu as (u0 & <- & Hin).
    destruct (String.eqb _ _); [exact Hd | apply H; now apply list_elem_of_In].
  - unfold App.handleAddUser. apply Forall_app. split; [exact H|].
    now constructor.
  - unfold App.handleDeleteUser. rewrite Forall_forall in *.
    intros u Hu. apply list_elem_of_In, filter_In in Hu as [Hin _].
    apply H. now apply list_elem_of_In.
Qed.

(** X24.  A submission that ends with an error message changes no user.
    One that ends without a message had the user name, the password and
    the name filled, has cleared the form, and has stored the account
    built from the form (its four fields, and the class exactly when the
    role is teacher): from the edit form it replaces every account of
    that user name and changes no other; from the creation form the name
    was free and the account is appended. *)
Theorem submit_error_changes_nothing (st : AdminPanel.State) :
  (AdminPanel.userError (AdminPanel.form (AdminPanel.handleUserSubmit st)) <> "" ->
   AdminPanel.users (AdminPanel.handleUserSubmit st) = AdminPanel.users st) /\
  (AdminPanel.userError (AdminPanel.form (AdminPanel.handleUserSubmit st)) = "" ->
   AdminPanel.form (AdminPanel.handleUserSubmit st) = AdminPanel.emptyForm /\
   (AdminPanel.username (AdminPanel.form st) <> "" /\
    AdminPanel.password (AdminPanel.form st) <> "" /\
    AdminPanel.name (AdminPanel.form st) <> "") /\
   AdminPanel.userData (AdminPanel.form st)
     = User.mk (AdminPanel.username (AdminPanel.form st))
         (AdminPanel.password (AdminPanel.form st))
         (AdminPanel.name (AdminPanel.form st))
         (AdminPanel.role (AdminPanel.form st))
         (match AdminPanel.role (AdminPanel.form st) with
          | teacher => Some (AdminPanel.assignedClass (AdminPanel.form st))
          | admin => None
          end) /\
   (AdminPanel.editingUser (AdminPanel.form st) <> None ->
    AdminPanel.users (AdminPanel.handleUserSubmit st)
      = List.map
          (fun u => if String.eqb (User.username u)
                         (AdminPanel.username (AdminPanel.form st))
                    then AdminPanel.userData (AdminPanel.form st) else u)
          (AdminPanel.users st)) /\
   (AdminPanel.editingUser (AdminPanel.form st) = None ->
    (AdminPanel.username (AdminPanel.form st)
       ∉ List.map User.username (AdminPanel.users st)) /\
    AdminPanel.users (AdminPanel.handleUserSubmit st)
      = AdminPanel.users st ++ [AdminPanel.userData (AdminPanel.form st)])).
Proof.
  split.
  - destruct (submit_cases st)
      as [[H He] | [(_ & _ & Hf & _) | (_ & _ & Hf & _)]];
      [auto | rewrite Hf; simpl; contradiction | rewrite Hf; simpl; contradiction].
  - intros Hok. pose proof (submit_fields_filled st Hok) as Hfilled.
    destruct (submit_cases st)
      as [[H He] | [(He & _ & Hf & H) | (He & _ & Hf & Hn & H)]].
    + contradiction.
    + repeat split; try tauto; try exact Hf; try exact H; try congruence.
    + repeat split; try tauto; try exact Hf; try exact H; try exact Hn;
        try contradiction.
Qed.

(** X25.  A user who is not an administrator can change nothing through
    the panel. *)
Theorem non_admin_changes_nothing (st : AdminPanel.State) (es : list AdminPanel.Event) :
  User.role currentUser <> admin -> run st es = st.
Proof.
  intros Hr. unfold AdminPanel.run.
  induction es as [|e es IH]; simpl; [reflexivity|].
  unfold AdminPanel.step at 2.
  destruct (User.role currentUser); [contradiction|]. simpl. exact IH.
Qed.

End AdminInvariants.

(** ** Login *)

Section LoginFacts.

Variable users : list User.t.

Lemma login_find (username password : string) :
  match Login.handleLogin users username password with
  | inl u => u ∈ users /\ User.username u = username /\ User.password u = password
  | inr msg =>
      msg = "Invalid username or password" /\
      forall u, u ∈ users ->
        ~ (User.username u = username /\ User.password u = password)
  end.
Proof.
  unfold Login.handleLogin.
  destruct (List.find _ users) as [u|] eqn:E.
  - apply List.find_some in E as [Hin Hm].
    apply andb_true_iff in Hm as [Hn Hp].
    apply String.eqb_eq in Hn, Hp. split; [now apply list_elem_of_In | auto].
  - split; [reflexivity|]. intros u Hin [Hn Hp].
    apply list_elem_of_In in Hin.
    pose proof (List.find_none _ _ E u Hin) as Hf. simpl in Hf.
    rewrite Hn, Hp, !String.eqb_refl in Hf. discriminate.
Qed.

(** X26.  Login hands over a user only when that user is in the list
    with exactly the name and the password typed, and it fails, with the
    message "Invalid username or password", exactly when no user of the
    list has both. *)
Theorem login_sound_and_complete (username password : string) :
  (forall u, Login.handleLogin users username password = inl u ->
     u ∈ users /\ User.username u = username /\ User.password u = password) /\
  (Login.handleLogin users username password = inr "Invalid username or password" <->
   forall u, u ∈ users ->
     ~ (User.username u = username /\ User.password u = password)).
Proof.
  pose proof (login_find username password) as H.
  destruct (Login.handleLogin users username password) as [u|msg].
  - split; [intros u' [= <-]; exact H|].
    split; [discriminate|]. intros Hno. exfalso.
    destruct H as (Hin & Hn & Hp). exact (Hno u Hin (conj Hn Hp)).
  - destruct H as [-> H]. split; [discriminate|]. split; auto.
Qed.

End LoginFacts.

(** X27.  A deleted account cannot log in: after the deletion of a user
    name, login under that name fails whatever the password. *)
Theorem deleted_user_cannot_login (users : list User.t) (username password : string) :
  Login.handleLogin (App.handleDeleteUser username users) username password
  = inr "Invalid username or password".
Proof.
  pose proof (login_find (App.handleDeleteUser username users) username password) as H.
  destruct (Login.handleLogin _ _ _) as [u|msg].
  - destruct H as (Hin & Hn & _).
    apply list_elem_of_In, filter_In in Hin as [_ Hne].
    rewrite Hn, String.eqb_refl in Hne. discriminate.
  - now destruct H as [-> _].
Qed.

(** ** The student registry and the dashboard *)

Section RegistryFacts.

Variable students : list Student.t.
Variable records : list AttendanceRecord.t.

(** X28.  Deleting a student removes every student of that id and no
    other, keeps the order, and leaves the ledger alone: an administrator
    still sees all events, while a teacher with a class no longer sees
    any event of the deleted id. *)
Theorem deleted_student_events_orphaned (id : string) :
  (forall s, s ∈ AppRegistry.handleDeleteStudent id students <->
             s ∈ students /\ Student.id s <> id) /\
  AppRegistry.handleDeleteStudent id students `sublist_of` students /\
  (forall a, User.role a = admin ->
     App.filteredRecords (Some a) (AppRegistry.handleDeleteStudent id students) records
     = records) /\
  (forall u r, User.role u = teacher -> JS.truthy (User.assignedClass u) = true ->
     r ∈ App.filteredRecords (Some u)
           (AppRegistry.handleDeleteStudent id students) records ->
     AttendanceRecord.studentId r <> id).
Proof.
  assert (Hmem : forall s, s ∈ AppRegistry.handleDeleteStudent id students <->
                           s ∈ students /\ Student.id s <> id).
  { intros s. unfold AppRegistry.handleDeleteStudent.
    rewrite !list_elem_of_In, filter_In, negb_true_iff.
    split; intros [Hin Hne]; split; auto.
    - intros Heq. apply String.eqb_eq in Heq. congruence.
    - apply not_true_is_false. now rewrite String.eqb_eq. }
  split; [exact Hmem|]. split; [apply filter_bool_sublist|]. split.
  - intros a Ha. unfold App.filteredRecords. now rewrite Ha.
  - intros u r Hr Hc Hin.
    destruct (teacher_event_student u _ records r Hr Hc Hin) as (s & Hs & Hid & _).
    assert (Hs' : s ∈ AppRegistry.handleDeleteStudent id students).
    { unfold App.filteredStudents in Hs. rewrite Hr, Hc in Hs. simpl in Hs.
      apply list_elem_of_In, filter_In in Hs as [Hs _]. now apply list_elem_of_In. }
    apply Hmem in Hs' as [_ Hne]. congruence.
Qed.

(** X29.  Editing a student or a user never adds, removes or reorders:
    the list of ids (of user names) is the same before and after; an edit
    under an id that is not registered changes nothing; and after the
    edit every entry of that id is the submitted one. *)
Theorem edit_keeps_keys (updatedStudent : Student.t) (updatedUser : User.t)
    (users : list User.t) :
  List.map Student.id (AppRegistry.handleEditStudent updatedStudent students)
    = List.map Student.id students /\
  (Student.id updatedStudent ∉ List.map Student.id students ->
   AppRegistry.handleEditStudent updatedStudent students = students) /\
  (forall s, s ∈ AppRegistry.handleEditStudent updatedStudent students ->
     Student.id s = Student.id updatedStudent -> s = updatedStudent) /\
  List.map User.username (App.handleEditUser updatedUser users)
    = List.map User.username users /\
  (User.username updatedUser ∉ List.map User.username users ->
   App.handleEditUser updatedUser users = users) /\
  (forall u, u ∈ App.handleEditUser updatedUser users ->
     User.username u = User.username updatedUser -> u = updatedUser).
Proof.
  unfold AppRegistry.handleEditStudent, App.handleEditUser.
  repeat split.
  - induction students as [|s l IH]; simpl; [reflexivity|]. rewrite IH.
    destruct (String.eqb _ _) eqn:E; [|reflexivity].
    apply String.eqb_eq in E. now rewrite E.
  - induction students as [|s l IH]; simpl; intros Hn; [reflexivity|].
    apply not_elem_of_cons in Hn as [Hne Hn]. rewrite (IH Hn).
    destruct (String.eqb _ _) eqn:E; [|reflexivity].
    apply String.eqb_eq in E. congruence.
  - intros s Hin Hid. apply list_elem_of_In, in_map_iff in Hin as (s0 & Hs & _).
    destruct (String.eqb _ _) eqn:E; [congruence|]. subst s0.
    rewrite Hid, String.eqb_refl in E. discriminate.
  - induction users as [|u l IH]; simpl; [reflexivity|]. rewrite IH.
    destruct (String.eqb _ _) eqn:E; [|reflexivity].
    apply String.eqb_eq in E. now rewrite E.
  - induction users as [|u l IH]; simpl; intros Hn; [reflexivity|].
    apply not_elem_of_cons in Hn as [Hne Hn]. rewrite (IH Hn).
    destruct (String.eqb _ _) eqn:E; [|reflexivity].
    apply String.eqb_eq in E. congruence.
  - intros u Hin Hid. apply list_elem_of_In, in_map_iff in Hin as (u0 & Hu & _).
    destruct (String.eqb _ _) eqn:E; [congruence|]. subst u0.
    rewrite Hid, String.eqb_refl in E. discriminate.
Qed.

End RegistryFacts.

Section DashboardFacts.

Variable today : string.

Lemma size_list_to_set_le (l : list string) :
  (size (list_to_set l : gset string) <= length l)%nat.
Proof.
  induction l as [|x l IH].
  - rewrite list_to_set_nil, size_empty. simpl. lia.
  - rewrite list_to_set_cons, size_union_alt, size_singleton. simpl.
    assert (Hsub : (size (list_to_set l ∖ {[x]} : gset string)
                    <= size (list_to_set l : gset string))%nat).
    { apply subseteq_size. intros y Hy. now apply elem_of_difference in Hy. }
    lia.
Qed.

(** X30.  On the dashboard the absent count shown is never negative;
    and when every student marked PRESENT today is one of the students
    shown, present and absent add up to the number of students.  This is
    so in particular for the students and events a teacher with a class
    is given. *)
Theorem dashboard_counts_add_up (students : list Student.t)
    (records : list AttendanceRecord.t) :
  0 <= Dashboard.absentShown today students records /\
  ((forall r, r ∈ records ->
      AttendanceRecord.date r = today -> AttendanceRecord.status r = PRESENT ->
      AttendanceRecord.studentId r ∈ List.map Student.id students) ->
   Dashboard.presentCount today records <= Dashboard.totalStudents students /\
   Dashboard.presentCount today records + Dashboard.absentShown today students records
     = Dashboard.totalStudents students) /\
  (forall u, User.role u = teacher -> JS.truthy (User.assignedClass u) = true ->
     Dashboard.presentCount today (App.filteredRecords (Some u) students records)
     + Dashboard.absentShown today (App.filteredStudents (Some u) students)
         (App.filteredRecords (Some u) students records)
     = Dashboard.totalStudents (App.filteredStudents (Some u) students)).
Proof.
  assert (Hshown : forall ss rs, 0 <= Dashboard.absentShown today ss rs).
  { intros ss rs. unfold Dashboard.absentShown.
    destruct (_ <? 0)%Z eqn:E; [lia | now apply Z.ltb_ge in E]. }
  assert (Hsum : forall ss rs,
            (forall r, r ∈ rs ->
               AttendanceRecord.date r = today -> AttendanceRecord.status r = PRESENT ->
               AttendanceRecord.studentId r ∈ List.map Student.id ss) ->
            Dashboard.presentCount today rs <= Dashboard.totalStudents ss /\
            Dashboard.presentCount today rs + Dashboard.absentShown today ss rs
              = Dashboard.totalStudents ss).
  { intros ss rs Hall.
    assert (Hle : Dashboard.presentCount today rs <= Dashboard.totalStudents ss).
    { unfold Dashboard.presentCount, Dashboard.totalStudents.
      apply inj_le.
      pose proof (size_list_to_set_le (List.map Student.id ss)) as Hids.
      rewrite List.length_map in Hids.
      etransitivity; [|exact Hids].
      apply subseteq_size. intros i Hi.
      apply elem_of_list_to_set in Hi. apply elem_of_list_to_set.
      apply list_elem_of_In, in_map_iff in Hi as (r & <- & Hr).
      apply filter_In in Hr as [Hr Hst]. apply filter_In in Hr as [Hr Hd].
      apply Hall; [now apply list_elem_of_In | now apply String.eqb_eq
                  | now destruct (AttendanceRecord.status r)]. }
    split; [exact Hle|].
    unfold Dashboard.absentShown, Dashboard.absentCount.
    destruct (_ <? 0)%Z eqn:E; [apply Z.ltb_lt in E | apply Z.ltb_ge in E]; lia. }
  split; [apply Hshown|]. split; [apply Hsum|].
  intros u Hr Hc. apply Hsum. intros r Hin _ _.
  destruct (teacher_event_student u students records r Hr Hc Hin) as (s & Hs & Hid & _).
  rewrite <- Hid. apply list_elem_of_In, in_map. now apply list_elem_of_In.
Qed.

End DashboardFacts.

(** ** The properties on sample data *)

Lemma ledger_stays_well_spaced_sample :
  (forall seen c,
     (forall r, r ∈ [] -> r ∈ seen) ->
     Inv.wellSpaced Host.Date_getTime
       (App.handleMarkAttendance Host.Date_getTime seen c [])) /\
  Inv.wellSpaced Host.Date_getTime
    (fold_left (fun l c => App.handleMarkAttendance Host.Date_getTime l c l)
       [Cases.first; Cases.repeated; Cases.later] []) /\
  forall (i j : nat) ri rj,
    i <> j ->
    fold_left (fun l c => App.handleMarkAttendance Host.Date_getTime l c l)
      [Cases.first; Cases.repeated; Cases.later] [] !! i = Some ri ->
    fold_left (fun l c => App.handleMarkAttendance Host.Date_getTime l c l)
      [Cases.first; Cases.repeated; Cases.later] [] !! j = Some rj ->
    ~ Spec.inWindow Host.Date_getTime ri rj.
Proof.
  apply (ledger_stays_well_spaced Host.Date_getTime []
           [Cases.first; Cases.repeated; Cases.later]).
  simpl. exact I.
Defined.

Lemma append_same_twice_sample :
  (Cases.first ∈ [Cases.first] ->
   App.handleMarkAttendance Host.Date_getTime [Cases.first] Cases.first [Cases.first]
   = [Cases.first]) /\
  App.handleMarkAttendance Host.Date_getTime
    (App.handleMarkAttendance Host.Date_getTime [Cases.first] Cases.first [Cases.first])
    Cases.first
    (App.handleMarkAttendance Host.Date_getTime [Cases.first] Cases.first [Cases.first])
  = App.handleMarkAttendance Host.Date_getTime [Cases.first] Cases.first [Cases.first] /\
  (App.accepted Host.Date_getTime [Cases.first] Cases.first = true ->
   App.handleMarkAttendance Host.Date_getTime [Cases.first] Cases.first
     (App.handleMarkAttendance Host.Date_getTime [Cases.first] Cases.first [Cases.first])
   = [Cases.first; Cases.first; Cases.first]).
Proof.
  apply (append_same_twice Host.Date_getTime [Cases.first] [Cases.first] Cases.first).
  vm_compute. discriminate.
Defined.

Lemma unparsed_time_sample :
  (forall seen,
     App.handleMarkAttendance Host.Date_getTime seen Cases.unparsed [Cases.first]
     = [Cases.unparsed; Cases.first]) /\
  (forall seen1 seen2,
     App.handleMarkAttendance Host.Date_getTime seen2 Cases.unparsed
       (App.handleMarkAttendance Host.Date_getTime seen1 Cases.unparsed [Cases.first])
     = [Cases.unparsed; Cases.unparsed; Cases.first]) /\
  App.handleMarkAttendance Host.Date_getTime [Cases.first] Cases.unparsed [Cases.first]
    = [Cases.unparsed; Cases.first] /\
  App.handleMarkAttendance Host.Date_getTime
    (App.handleMarkAttendance Host.Date_getTime [Cases.first] Cases.unparsed [Cases.first])
    Cases.unparsed
    (App.handleMarkAttendance Host.Date_getTime [Cases.first] Cases.unparsed [Cases.first])
  = [Cases.unparsed; Cases.unparsed; Cases.first].
Proof.
  apply (unparsed_time_always_stored Host.Date_getTime [Cases.first] Cases.unparsed).
  vm_compute. reflexivity.
Defined.

Lemma teacher_event_sample :
  exists s,
    s ∈ App.filteredStudents (Some Sample.teacher10A) [Sample.S202; Sample.S303] /\
    Student.id s
      = AttendanceRecord.studentId
          (Sample.event "1" "S202" "2024-03-01" "10:00:00" PRESENT) /\
    Some (Student.classSection s) = User.assignedClass Sample.teacher10A.
Proof.
  apply (teacher_events_have_visible_student Sample.teacher10A
           [Sample.S202; Sample.S303]
           [Sample.event "1" "S202" "2024-03-01" "10:00:00" PRESENT;
            Sample.event "2" "S303" "2024-03-01" "10:05:00" PRESENT]).
  - reflexivity.
  - reflexivity.
  - vm_compute. apply list_elem_of_here.
Defined.

Lemma log_stays_bounded_sample :
  Inv2.logBounded
    (LiveScanner.run Host.Date_getTime [Sample.S101]
       (LiveScanner.mount []) Sessions.manyToggles).
Proof.
  apply (log_stays_bounded Host.Date_getTime [Sample.S101]).
  unfold Inv2.logBounded. simpl. lia.
Defined.

Lemma failed_analysis_sample :
  LiveScanner.records
    (LiveScanner.handleScan_resume Host.Date_getTime Cases.failing Sample.clock
       Sample.scanning)
  = LiveScanner.records Sample.scanning /\
  LiveScanner.isProcessing
    (LiveScanner.scanner
       (LiveScanner.handleScan_resume Host.Date_getTime Cases.failing Sample.clock
          Sample.scanning)) = false /\
  LiveScanner.logs
    (LiveScanner.scanner
       (LiveScanner.handleScan_resume Host.Date_getTime Cases.failing Sample.clock
          Sample.scanning)) !! 0%nat
  = Some "❌ Scan failed: AI Error" /\
  LiveScanner.lastScanResult
    (LiveScanner.scanner
       (LiveScanner.handleScan_resume Host.Date_getTime Cases.failing Sample.clock
          Sample.scanning))
  = LiveScanner.lastScanResult (LiveScanner.scanner Sample.scanning).
Proof.
  apply (failed_analysis_stores_nothing Host.Date_getTime Cases.failing Sample.clock
           Sample.scanning "data:image/jpeg;base64,FFFF" [Sample.S101] [] []).
  - reflexivity.
  - reflexivity.
  - discriminate.
Defined.

Lemma stopped_camera_sample :
  LiveScanner.isActive
    (LiveScanner.scanner
       (LiveScanner.step Host.Date_getTime [Sample.S101] Cases.cameraOn
          LiveScanner.StopCamera)) = false /\
  LiveScanner.autoMode
    (LiveScanner.scanner
       (LiveScanner.step Host.Date_getTime [Sample.S101] Cases.cameraOn
          LiveScanner.StopCamera)) = false /\
  LiveScanner.step Host.Date_getTime [Sample.S101]
    (LiveScanner.step Host.Date_getTime [Sample.S101] Cases.cameraOn
       LiveScanner.StopCamera)
    (LiveScanner.Tick true "data:,GGGG")
  = LiveScanner.step Host.Date_getTime [Sample.S101] Cases.cameraOn
      LiveScanner.StopCamera /\
  LiveScanner.step Host.Date_getTime [Sample.S101]
    (LiveScanner.step Host.Date_getTime [Sample.S101] Cases.cameraOn
       LiveScanner.StopCamera)
    (LiveScanner.ScanNow true "data:,GGGG")
  = LiveScanner.step Host.Date_getTime [Sample.S101] Cases.cameraOn
      LiveScanner.StopCamera /\
  LiveScanner.step Host.Date_getTime [Sample.S101]
    (LiveScanner.step Host.Date_getTime [Sample.S101] Cases.cameraOn
       LiveScanner.StopCamera)
    LiveScanner.ToggleAuto
  = LiveScanner.step Host.Date_getTime [Sample.S101] Cases.cameraOn
      LiveScanner.StopCamera.
Proof.
  apply (stopped_camera_starts_no_scan Host.Date_getTime [Sample.S101] Cases.cameraOn
           true "data:,GGGG"); reflexivity.
Defined.

Lemma empty_pool_sample :
  LiveScanner.records
    (LiveScanner.handleScan_resume Host.Date_getTime Cases.failing Sample.clock
       Cases.scanningNobody)
  = LiveScanner.records Cases.scanningNobody /\
  LiveScanner.lastScanResult
    (LiveScanner.scanner
       (LiveScanner.handleScan_resume Host.Date_getTime Cases.failing Sample.clock
          Cases.scanningNobody))
  = Some (ScanResult.mk None 0 false "No students registered"
            "Please register students first.") /\
  LiveScanner.logs
    (LiveScanner.scanner
       (LiveScanner.handleScan_resume Host.Date_getTime Cases.failing Sample.clock
          Cases.scanningNobody)) !! 0%nat
  = Some "ℹ️ Please register students first." /\
  LiveScanner.isProcessing
    (LiveScanner.scanner
       (LiveScanner.handleScan_resume Host.Date_getTime Cases.failing Sample.clock
          Cases.scanningNobody)) = false.
Proof.
  apply (empty_pool_scan_is_local Host.Date_getTime Cases.failing Sample.clock
           Cases.scanningNobody "data:image/jpeg;base64,FFFF" [] []).
  reflexivity.
Defined.

Lemma ledger_events_come_from_pool_sample :
  Inv.fromPool [Sample.S101]
    (AttendanceRecord.mk "1709287200000" "S101" "Asha" "10:00:00" "2024-03-01"
       PRESENT (92 # 100) (Some "Focused") (Some "clear match")).
Proof.
  apply (ledger_events_come_from_pool Host.Date_getTime [Sample.S101]
           (LiveScanner.mount []) Sessions.scanOfS101).
  - intros r Hr. simpl in Hr. now apply not_elem_of_nil in Hr.
  - intros call Hin. simpl in Hin. now apply not_elem_of_nil in Hin.
  - vm_compute. apply list_elem_of_here.
Defined.

Lemma usernames_stay_unique_sample :
  Inv.uniqueNames
    (AdminPanel.users
       (AdminPanel.run App.SUPER_ADMIN Sessions.fresh Sessions.session)).
Proof.
  apply (usernames_stay_unique App.SUPER_ADMIN Sessions.fresh Sessions.session).
  unfold Inv.uniqueNames. simpl. apply NoDup_singleton.
Defined.

Lemma own_account_persists_sample :
  User.username App.SUPER_ADMIN ∈
    List.map User.username
      (AdminPanel.users
         (AdminPanel.run App.SUPER_ADMIN Sessions.fresh Sessions.session)).
Proof.
  apply (own_account_persists App.SUPER_ADMIN Sessions.fresh Sessions.session).
  simpl. apply list_elem_of_here.
Defined.

Lemma accounts_stay_classed_sample :
  Forall Inv.classed
    (AdminPanel.users
       (AdminPanel.run App.SUPER_ADMIN Sessions.fresh Sessions.session)).
Proof.
  apply (accounts_stay_classed App.SUPER_ADMIN Sessions.fresh Sessions.session).
  simpl. constructor; [reflexivity | constructor].
Defined.

Lemma non_admin_sample :
  AdminPanel.run Sample.teacher10A Sessions.fresh Sessions.session = Sessions.fresh.
Proof.
  apply (non_admin_changes_nothing Sample.teacher10A Sessions.fresh Sessions.session).
  simpl. discriminate.
Defined.

(** The sample session leaves the bootstrap administrator alone in the
    list: the second creation under a taken name is refused and the
    teacher is deleted. *)
Example session_result :
  AdminPanel.users (AdminPanel.run App.SUPER_ADMIN Sessions.fresh Sessions.session)
    = [App.SUPER_ADMIN] /\
  AdminPanel.users
    (AdminPanel.run App.SUPER_ADMIN Sessions.fresh (take 10 Sessions.session))
    = [App.SUPER_ADMIN; User.mk "t10a" "pw" "Mr. Das" teacher (Some "10-A")].
Proof. split; reflexivity. Qed.

